(** * The air-quality CSV summariser of [app.py]

    A shallow embedding of [analyze_air_quality_csv] (app.py, lines 24-71),
    the one function of the repository with deterministic logic, and the
    properties of its report.

    The function is a short pandas script.  The pandas operations whose
    meaning is fixed by the script ([head], [tail], [take], [mean], [min],
    [max], [notna], label lookup, [to_dict]) are written out below on a
    column-oriented frame.  What the script leaves to the libraries is an
    interface, [Pandas], over which every general theorem is quantified:
    - the parsers and the printer of pandas ([read_csv], [to_datetime],
      [to_string]);
    - [str.strip] and [str.lower] of Python, fixed here on ASCII text only;
    - the sum and the argsort of numpy: the order in which a sum adds its
      terms and the order in which a sort leaves equal keys depend on the
      build of numpy, so only what holds for every order is assumed.
    A small instance, [SimplePandas], runs the sample file of app.py.

    Numbers: a float64 is a binary64 float of the kernel ([PrimFloat]), with
    its NaN, its infinities and its signed zeros; an int64 is an integer. *)

From Stdlib Require Import Floats.
From Stdlib Require Import ZArith QArith Qabs Qpower Bool List Ascii String Lia.
From Stdlib Require Import Permutation Sorted DecimalString.
Import ListNotations.

Local Open Scope string_scope.
Local Open Scope Z_scope.

(* ================================================================== *)
(** * Exceptions *)

(** A Python computation either returns or raises; [Raise] carries the name
    of the exception class. *)
Inductive exc (A : Type) : Type :=
| Ok (a : A)
| Raise (e : string).
Arguments Ok {A} a.
Arguments Raise {A} e.

Definition bind {A B : Type} (m : exc A) (k : A -> exc B) : exc B :=
  match m with
  | Ok a => k a
  | Raise e => Raise e
  end.

Notation "x <- m ;; k" := (bind m (fun x => k))
  (at level 61, m at next level, right associativity).

(* ================================================================== *)
(** * Strings

    A Python [str] is held as the bytes of its UTF-8 encoding: a character
    below 128 is one byte, and the bytes of the other characters are all
    above 127. *)

Definition nl : string := String (ascii_of_nat 10) "".

(** [sep.join(l)] *)
Definition join (sep : string) (l : list string) : string := String.concat sep l.

(** Text made of ASCII characters only. *)
Fixpoint is_ascii (s : string) : bool :=
  match s with
  | String c s' => (nat_of_ascii c <? 128)%nat && is_ascii s'
  | EmptyString => true
  end.

(** ASCII white space as [str.strip()] sees it: tab, line feed, vertical tab,
    form feed, carriage return, the four separators 0x1c-0x1f and space. *)
Definition is_space (c : ascii) : bool :=
  let n := nat_of_ascii c in
  ((9 <=? n) && (n <=? 13) || (28 <=? n) && (n <=? 32))%nat.

Fixpoint lstrip (s : string) : string :=
  match s with
  | String c s' => if is_space c then lstrip s' else s
  | EmptyString => EmptyString
  end.

Fixpoint rstrip (s : string) : string :=
  match s with
  | String c s' =>
      match rstrip s' with
      | EmptyString => if is_space c then EmptyString else String c EmptyString
      | r => String c r
      end
  | EmptyString => EmptyString
  end.

(** [s.strip()] for ASCII text. *)
Definition strip (s : string) : string := rstrip (lstrip s).

Definition lower_char (c : ascii) : ascii :=
  let n := nat_of_ascii c in
  if ((65 <=? n) && (n <=? 90))%nat then ascii_of_nat (n + 32) else c.

(** [s.lower()] for ASCII text. *)
Fixpoint lower (s : string) : string :=
  match s with
  | String c s' => String (lower_char c) (lower s')
  | EmptyString => EmptyString
  end.

(** [x in l] for a list of labels. *)
Definition mem (x : string) (l : list string) : bool := existsb (String.eqb x) l.

(** A character occurs in a string. *)
Fixpoint occurs (c : ascii) (s : string) : bool :=
  match s with
  | EmptyString => false
  | String a s' => Ascii.eqb a c || occurs c s'
  end.

(** Decimal rendering of integers, as [str(int)] and [%d]. *)
Definition Z_str (z : Z) : string := NilZero.string_of_int (Z.to_int z).
Definition nat_str (n : nat) : string := NilZero.string_of_uint (Nat.to_uint n).

Fixpoint zeros (n : nat) : string :=
  match n with
  | O => EmptyString
  | S k => String "0" (zeros k)
  end.

(** [%0{w}d] for a number that is not negative. *)
Definition zpad (w : nat) (z : Z) : string :=
  let s := Z_str z in zeros (w - String.length s) ++ s.

(* ================================================================== *)
(** * Floats *)

Definition Zsum (l : list Z) : Z := fold_right Z.add 0 l.

(** An int64 cast to float64: the nearest float, ties to even. *)
Definition Z_to_float (z : Z) : float :=
  SF2Prim (binary_normalize prec emax z 0 false).

(** The integer part of a finite float; 0 for the zeros, the infinities and
    NaN. *)
Definition float_to_Z (x : float) : Z :=
  match Prim2SF x with
  | S754_finite s m e => cond_Zopp s (Z.shiftl (Zpos m) e)
  | _ => 0
  end.

(** The cast of an integer loses nothing: the float is the integer. *)
Definition exact_cast (z : Z) : bool := float_to_Z (Z_to_float z) =? z.

(** Integers whose float sum is exact whatever the order of the additions:
    each is a float, and so is every partial sum, since the sum of the
    magnitudes stays below 2^53. *)
Definition exactly_summable (zs : list Z) : bool :=
  forallb exact_cast zs && (Zsum (map Z.abs zs) <? 2 ^ 53).

(** [pd.isna(x)], [pd.notna(x)] on a float. *)
Definition isna (x : float) : bool := PrimFloat.is_nan x.

(** Nearest integer to a rational that is not negative, ties to even.  The
    fraction is reduced first, so that the result depends on the value only. *)
Definition round_half_even (q : Q) : Z :=
  let n := Qnum (Qred q) in
  let d := Zpos (Qden (Qred q)) in
  let f := n / d in
  let r := n mod d in
  if 2 * r <? d then f
  else if d <? 2 * r then f + 1
  else if Z.even f then f else f + 1.

(** The digits of [f"{q:.2f}"] for a rational that is not negative: the
    nearest number of hundredths, written with two decimals. *)
Definition two_decimals (q : Q) : string :=
  let c := round_half_even (q * 100) in
  Z_str (c / 100) ++ "." ++ zpad 2 (c mod 100).

(** The magnitude [m * 2^e] of a finite float. *)
Definition magnitude (m : positive) (e : Z) : Q := (inject_Z (Zpos m) * 2 ^ e)%Q.

Definition sign_str (s : bool) : string := if s then "-" else "".

(** [f"{v:.2f}"] for a float: the exact value of the float is rounded to
    hundredths, ties to even; the sign is the sign bit, also of a zero and of
    what rounds to zero. *)
Definition fmt_float (v : float) : string :=
  match Prim2SF v with
  | S754_nan => "nan"
  | S754_infinity s => sign_str s ++ "inf"
  | S754_zero s => sign_str s ++ "0.00"
  | S754_finite s m e => sign_str s ++ two_decimals (magnitude m e)
  end.

(** The magnitude of a float: the exact value of a finite one without its
    sign, 0 for the others. *)
Definition abs_value (v : float) : Q :=
  match Prim2SF v with
  | S754_finite _ m e => magnitude m e
  | _ => 0%Q
  end.

#[global] Arguments Z_to_float : simpl never.
#[global] Arguments fmt_float : simpl never.

(* ================================================================== *)
(** * Timestamps

    A [datetime64[ns]] value is a number of nanoseconds since 1970-01-01;
    NaT is [None].  With the nanosecond resolution of pandas 2 the years lie
    between 1677 and 2262, and [date()] returns for every timestamp. *)

Definition NS_PER_DAY : Z := 86400 * 1000000000.

(** Civil date of a day number (days since 1970-01-01), proleptic Gregorian. *)
Definition civil_from_days (days : Z) : Z * Z * Z :=
  let z := days + 719468 in
  let era := z / 146097 in
  let doe := z - era * 146097 in
  let yoe := (doe - doe / 1460 + doe / 36524 - doe / 146096) / 365 in
  let doy := doe - (365 * yoe + yoe / 4 - yoe / 100) in
  let mp := (5 * doy + 2) / 153 in
  let d := doy - (153 * mp + 2) / 5 + 1 in
  let m := if mp <? 10 then mp + 3 else mp - 9 in
  let y := yoe + era * 400 + (if m <=? 2 then 1 else 0) in
  (y, m, d).

Definition days_from_civil (y m d : Z) : Z :=
  let y' := if m <=? 2 then y - 1 else y in
  let era := y' / 400 in
  let yoe := y' - era * 400 in
  let doy := (153 * (if 2 <? m then m - 3 else m + 9) + 2) / 5 + d - 1 in
  let doe := yoe * 365 + yoe / 4 - yoe / 100 + doy in
  era * 146097 + doe - 719468.

(** The day number of a timestamp: its date portion. *)
Definition day_of (t : Z) : Z := t / NS_PER_DAY.

(** [str(t.date())]: [YYYY-MM-DD], the time of day dropped. *)
Definition date_str (t : Z) : string :=
  let '(y, m, d) := civil_from_days (day_of t) in
  zpad 4 y ++ "-" ++ zpad 2 m ++ "-" ++ zpad 2 d.

(* ================================================================== *)
(** * Series and frames *)

(** A column with its dtype.  [read_csv] yields the first five; the sixth is
    what [to_datetime] returns.  The dtype [object] comes in two kinds: text,
    and truth values some of which are missing, which a [bool] column cannot
    hold and pandas keeps as Python objects. *)
Inductive Series : Type :=
| Int64 (v : list Z)
| Float64 (v : list float)               (* a missing value is NaN *)
| Boolean (v : list bool)
| Object (v : list (option string))      (* text cells; [None] is NaN *)
| ObjectBool (v : list (option bool))    (* [True], [False]; [None] is NaN *)
| Datetime64 (v : list (option Z)).      (* [None] is NaT *)

(** A frame: the row labels and the labelled columns, in load order.  Labels
    may repeat, as pandas allows. *)
Record DataFrame : Type := mkFrame {
  index : list nat;
  cols : list (string * Series)
}.

(** [df.columns] and [len(df)] *)
Definition columns (df : DataFrame) : list string := map fst (cols df).
Definition len (df : DataFrame) : nat := List.length (index df).

Definition Series_len (s : Series) : nat :=
  match s with
  | Int64 v => List.length v
  | Float64 v => List.length v
  | Boolean v => List.length v
  | Object v => List.length v
  | ObjectBool v => List.length v
  | Datetime64 v => List.length v
  end.

(** A positional operation applied to the values of a column. *)
Definition Series_apply (f : forall A : Type, list A -> list A) (s : Series) : Series :=
  match s with
  | Int64 v => Int64 (f _ v)
  | Float64 v => Float64 (f _ v)
  | Boolean v => Boolean (f _ v)
  | Object v => Object (f _ v)
  | ObjectBool v => ObjectBool (f _ v)
  | Datetime64 v => Datetime64 (f _ v)
  end.

Definition DataFrame_apply (f : forall A : Type, list A -> list A) (df : DataFrame)
  : DataFrame :=
  {| index := f _ (index df);
     cols := map (fun c => (fst c, Series_apply f (snd c))) (cols df) |}.

(** [l[-n:]] for [n > 0]; [tail(0)] is empty. *)
Definition lastn {A : Type} (n : nat) (l : list A) : list A :=
  skipn (List.length l - n) l.

(** [df.head(n)], [df.tail(n)] for [n >= 0] *)
Definition DataFrame_head (n : nat) : DataFrame -> DataFrame :=
  DataFrame_apply (fun A => @firstn A n).
Definition DataFrame_tail (n : nat) : DataFrame -> DataFrame :=
  DataFrame_apply (fun A => @lastn A n).

(** [values.take(indexer)]; every position of an indexer built by [nargsort]
    is in range. *)
Definition take (indexer : list nat) {A : Type} (l : list A) : list A :=
  flat_map (fun i => match nth_error l i with Some x => [x] | None => [] end) indexer.

Definition DataFrame_take (indexer : list nat) : DataFrame -> DataFrame :=
  DataFrame_apply (fun A => @take indexer A).

(** [df[label]]: the columns carrying the label.  One column is a Series;
    several make a sub-frame. *)
Definition getitem (df : DataFrame) (label : string) : list Series :=
  map snd (filter (fun c => String.eqb (fst c) label) (cols df)).

(** [df[label] = s] for a label that is present: the values are replaced in
    place. *)
Definition setitem (df : DataFrame) (label : string) (s : Series) : DataFrame :=
  {| index := index df;
     cols := map (fun c => if String.eqb (fst c) label then (fst c, s) else c) (cols df) |}.

(** [df[labels]]: for each label in turn, the columns carrying it. *)
Definition select (df : DataFrame) (labels : list string) : list (string * Series) :=
  flat_map (fun l => filter (fun c => String.eqb (fst c) l) (cols df)) labels.

Definition enumerate {A : Type} (l : list A) : list (nat * A) :=
  combine (seq 0 (List.length l)) l.

(** The positions that hold a timestamp, with it, and the positions of NaT. *)
Definition non_nan_of (e : list (nat * option Z)) : list (nat * Z) :=
  flat_map (fun p => match snd p with Some k => [(fst p, k)] | None => [] end) e.
Definition nan_of (e : list (nat * option Z)) : list nat :=
  flat_map (fun p => match snd p with Some _ => [] | None => [fst p] end) e.

(** The values of a datetime column. *)
Definition datetime_values (s : Series) : list (option Z) :=
  match s with
  | Datetime64 v => v
  | _ => []
  end.

(** The datetime values of [df[label]], for a label carried by one column. *)
Definition date_values (df : DataFrame) (label : string) : list (option Z) :=
  match getitem df label with
  | [s] => datetime_values s
  | _ => []
  end.

(** A column in ascending order with the missing values last. *)
Definition ascending_na_last (v : list (option Z)) : Prop :=
  exists (ks : list Z) (k : nat),
    v = (map Some ks ++ repeat None k)%list /\ Sorted Z.le ks.

(** ** Reductions on dates *)

Definition somes {A : Type} (l : list (option A)) : list A :=
  flat_map (fun o => match o with Some x => [x] | None => [] end) l.

(** [s.notna().any()] on a datetime column *)
Definition notna_any (v : list (option Z)) : bool :=
  existsb (fun o => match o with Some _ => true | None => false end) v.

(** [s.min()], [s.max()] on a datetime column: NaT is skipped, and the result
    is NaT when nothing is left. *)
Definition Series_min (v : list (option Z)) : option Z :=
  match somes v with
  | [] => None
  | x :: xs => Some (fold_left Z.min xs x)
  end.

Definition Series_max (v : list (option Z)) : option Z :=
  match somes v with
  | [] => None
  | x :: xs => Some (fold_left Z.max xs x)
  end.

(** ** Numeric columns *)

(** The dtypes that [numeric_only=True] keeps. *)
Definition is_numeric (s : Series) : bool :=
  match s with
  | Int64 _ | Float64 _ | Boolean _ => true
  | Object _ | ObjectBool _ | Datetime64 _ => false
  end.


(** The values of a numeric column as the floats that [mean] adds up: an
    int64 is cast, a bool counts for 1 or 0. *)
Definition float_values (s : Series) : list float :=
  match s with
  | Int64 v => map Z_to_float v
  | Float64 v => v
  | Boolean v => map (fun b : bool => Z_to_float (Z.b2z b)) v
  | Object _ | ObjectBool _ | Datetime64 _ => []
  end.

(** The mean of truth values kept as objects: Python adds the objects up,
    [True] counting for 1 and [False] for 0, which gives an integer, and the
    sum is divided by the number of values that are not missing; NaN when
    there is none. *)
Definition truth_mean (v : list (option bool)) : float :=
  match somes v with
  | [] => PrimFloat.nan
  | bs => PrimFloat.div (Z_to_float (Zsum (map Z.b2z bs)))
                        (Z_to_float (Z.of_nat (List.length bs)))
  end.

(** The values with 0 in place of NaN, and the number of values that are not
    NaN: what [nanops.nanmean] sums and what it divides by. *)
Definition fill_zero (v : list float) : list float :=
  map (fun x => if isna x then PrimFloat.zero else x) v.
Definition count_notna (v : list float) : nat :=
  List.length (filter (fun x => negb (isna x)) v).

(** One assignment [d[k] = v] of an insertion-ordered dict. *)
Fixpoint dict_set {V : Type} (d : list (string * V)) (k : string) (v : V)
  : list (string * V) :=
  match d with
  | [] => [(k, v)]
  | (k', v') :: d' => if String.eqb k' k then (k', v) :: d' else (k', v') :: dict_set d' k v
  end.

(** [series.to_dict()]: the entries inserted in order; a repeated label keeps
    its first place and its last value. *)
Definition to_dict {V : Type} (l : list (string * V)) : list (string * V) :=
  fold_left (fun d kv => dict_set d (fst kv) (snd kv)) l [].

(** What [s.mean()] returns. *)
Inductive scalar : Type :=
| FloatV (v : float)
| TimeV (v : option Z).

(** [pd.notna(x)] on a scalar *)
Definition notna (x : scalar) : bool :=
  match x with
  | FloatV v => negb (isna v)
  | TimeV (Some _) => true
  | TimeV None => false
  end.

(* ================================================================== *)
(** * The interface of the libraries *)

(** Every column of a frame has one value per row. *)
Definition rectangular (df : DataFrame) : bool :=
  forallb (fun c => Nat.eqb (Series_len (snd c)) (len df)) (cols df).

(** What the script calls and does not fix.
    - [str_strip s], [str_lower s] are [s.strip()] and [s.lower()] of Python:
      on ASCII text they are [strip] and [lower] above; what they do to other
      characters (Unicode white space, letters with case) is left open.
    - [fsum v] is numpy's sum of a float64 array.  The order of the additions
      (pairwise, blocked, from left to right) is numpy's choice, and with it
      the rounding; when the values are integers whose magnitudes add up to
      less than 2^53 every order gives the exact sum.
    - [argsort ks] is numpy's [argsort] of an int64 array with the default
      kind: a permutation of the positions along which the keys ascend.  The
      default sort is not stable, so the order of equal keys is left open.
    - [parse_csv text] is [pd.read_csv] on a file holding [text]: a frame with
      the header's labels, or an exception;
    - [to_datetime s] is [pd.to_datetime(s, errors="coerce")] on a column:
      one timestamp per value, NaT for what cannot be read as a date (with
      [errors="coerce"] pandas 2 returns for every column);
    - [to_string index df] is [df.to_string(index=index)]. *)
Class Pandas : Type := {
  str_strip : string -> string;
  str_lower : string -> string;
  str_strip_ascii : forall s, is_ascii s = true -> str_strip s = strip s;
  str_lower_ascii : forall s, is_ascii s = true -> str_lower s = lower s;
  fsum : list float -> float;
  fsum_exact :
    forall zs, exactly_summable zs = true ->
               fsum (map Z_to_float zs) = Z_to_float (Zsum zs);
  argsort : list Z -> list nat;
  argsort_Permutation :
    forall ks, Permutation (argsort ks) (seq 0 (List.length ks));
  argsort_Sorted : forall ks, Sorted Z.le (take (argsort ks) ks);
  parse_csv : string -> exc DataFrame;
  parse_csv_rectangular :
    forall text df, parse_csv text = Ok df -> rectangular df = true;
  to_datetime : Series -> list (option Z);
  to_datetime_length : forall s, List.length (to_datetime s) = Series_len s;
  to_string : bool -> DataFrame -> string
}.

(** The files the process can read: path to contents. *)
Definition FileSystem : Type := string -> option string.

(* ================================================================== *)
(** * analyze_air_quality_csv *)

Definition DATE_CANDIDATES : list string := ["date"; "timestamp"; "day"; "datetime"].

Definition VOCABULARY : list string :=
  ["pm25"; "pm2_5"; "pm10"; "no2"; "so2"; "co"; "o3"; "aqi"].

(** The [desc.append] that produced a line of the report (lines 38, 42, 47,
    66, 68 and 69 of app.py).  The tag is bookkeeping: the script keeps the
    text only. *)
Inductive line_kind : Type := Rows | DateRange | Means | Trends | Notice | Preview.

(** The literal [1e-6] of line 59: the float64 nearest to one millionth. *)
Definition THRESHOLD : float := 0x1.0c6f7a0b5ed8dp-20%float.

Definition NOTICE : string :=
  "No standard pollutant columns found. Showing dataframe head:".

(** lines 28-32 *)
Definition find_date_col (df : DataFrame) : option string :=
  find (fun cand => mem cand (columns df)) DATE_CANDIDATES.

(** line 37 *)
Definition find_pollutants (df : DataFrame) : list string :=
  filter (fun c => mem c (columns df)) VOCABULARY.

(** [date_col and df[date_col].notna().any()] *)
Definition has_dates (df : DataFrame) (date_col : option string) : bool :=
  match date_col with
  | Some c => notna_any (date_values df c)
  | None => false
  end.

(** [x.date() if pd.notna(x) else 'N/A'] *)
Definition render_bound (x : option Z) : string :=
  match x with
  | Some t => date_str t
  | None => "N/A"
  end.

(** line 42 *)
Definition date_range_line (v : list (option Z)) : string :=
  "Date range: " ++ render_bound (Series_min v) ++ " → " ++ render_bound (Series_max v).

(** line 62 *)
Definition trend_label (pol : string) (delta : float) : string :=
  pol ++ ": " ++ (if PrimFloat.ltb delta PrimFloat.zero then "decreasing" else "increasing")
      ++ " (~" ++ fmt_float delta ++ ")".

(** lines 58-62: the message for a difference of means, if any. *)
Definition trend_decision (pol : string) (delta : float) : exc (option string) :=
  if PrimFloat.ltb (PrimFloat.abs delta) THRESHOLD then Ok None
  else Ok (Some (trend_label pol delta)).

Section Analysis.
Context `{Pandas}.

(** [pd.read_csv(file_path)] *)
Definition read_csv (fs : FileSystem) (file_path : string) : exc DataFrame :=
  match fs file_path with
  | Some text => parse_csv text
  | None => Raise "FileNotFoundError"
  end.

(** line 26: [df.columns = [c.strip().lower() for c in df.columns]] *)
Definition normalize_columns (df : DataFrame) : DataFrame :=
  {| index := index df;
     cols := map (fun c => (str_lower (str_strip (fst c)), snd c)) (cols df) |}.

(** ** Sorting *)

(** [nargsort(items, ascending=True, na_position="last")]: the positions of
    the values that are not NaT, taken along the argsort of these values,
    then the positions of the NaT. *)
Definition nargsort (items : list (option Z)) : list nat :=
  let e := enumerate items in
  let non_nans := non_nan_of e in
  (take (argsort (map snd non_nans)) (map fst non_nans) ++ nan_of e)%list.

(** [df.sort_values(by=label)] on a datetime column *)
Definition sort_values (df : DataFrame) (label : string) : DataFrame :=
  DataFrame_take (nargsort (date_values df label)) df.

(** ** Means *)

(** Mean with [skipna=True]: the sum of the values, NaN counting for zero,
    over the number of values that are not NaN; NaN when there is none. *)
Definition nanmean (v : list float) : float :=
  match count_notna v with
  | O => PrimFloat.nan
  | n => PrimFloat.div (fsum (fill_zero v)) (Z_to_float (Z.of_nat n))
  end.

(** [frame.mean(numeric_only=True)]: a Series of means labelled by the numeric
    columns, in column order. *)
Definition mean_numeric_only (cs : list (string * Series)) : list (string * float) :=
  map (fun c => (fst c, nanmean (float_values (snd c))))
      (filter (fun c => is_numeric (snd c)) cs).

(** [s.mean()] on a Series.  On an object column the values are added up as
    Python objects: the sum of text cells is refused ([TypeError], as
    pandas 2 does), truth values are counted; with nothing but NaN the
    result is NaN. *)
Definition Series_mean (s : Series) : exc scalar :=
  match s with
  | Int64 _ | Float64 _ | Boolean _ => Ok (FloatV (nanmean (float_values s)))
  | Object v =>
      match somes v with
      | [] => Ok (FloatV PrimFloat.nan)
      | _ => Raise "TypeError"
      end
  | ObjectBool v => Ok (FloatV (truth_mean v))
  | Datetime64 v =>
      match somes v with
      | [] => Ok (TimeV None)
      | x :: xs => Ok (TimeV (Some (fold_left Z.add xs x / Z.of_nat (List.length (x :: xs)))))
      end
  end.

(** lines 45-47 *)
Definition means_line (df : DataFrame) (pollutants : list string) : string :=
  let means := to_dict (mean_numeric_only (select df pollutants)) in
  "Means: " ++ join "; " (map (fun kv => fst kv ++ "=" ++ fmt_float (snd kv)) means).

(** [slice[pol].mean()].  With a repeated label [slice[pol]] is a sub-frame;
    its means form a Series, which the test of line 57 refuses
    ([ValueError]). *)
Definition column_mean (slice : DataFrame) (pol : string) : exc scalar :=
  match getitem slice pol with
  | [s] => Series_mean s
  | _ => Raise "ValueError"
  end.

(** lines 56-62, the body of the [try]: the message to append, if any.
    Subtracting or comparing timestamps with a float raises [TypeError]. *)
Definition trend_of (head tail : DataFrame) (pol : string) : exc (option string) :=
  h <- column_mean head pol ;;
  t <- column_mean tail pol ;;
  if notna h && notna t then
    match h, t with
    | FloatV hv, FloatV tv => trend_decision pol (PrimFloat.sub tv hv)
    | _, _ => Raise "TypeError"
    end
  else Ok None.

(** lines 55-64, one turn of the loop: [except Exception: pass] drops a
    column whose trend failed. *)
Definition trend_step (head tail : DataFrame) (msgs : list string) (pol : string)
  : list string :=
  match trend_of head tail pol with
  | Ok (Some m) => (msgs ++ [m])%list
  | Ok None => msgs
  | Raise _ => msgs
  end.

(** lines 53-64: the loop. *)
Definition trend_msgs (head tail : DataFrame) (pollutants : list string) : list string :=
  fold_left (trend_step head tail) pollutants [].

(** lines 33-35.  With several columns labelled [date_col], [df[date_col]] is
    a sub-frame, which [to_datetime] refuses ([ValueError]). *)
Definition parse_dates (df : DataFrame) (date_col : option string) : exc DataFrame :=
  match date_col with
  | Some c =>
      match getitem df c with
      | [s] => Ok (sort_values (setitem df c (Datetime64 (to_datetime s))) c)
      | _ => Raise "ValueError"
      end
  | None => Ok df
  end.

(** lines 49-66 *)
Definition trend_lines (df : DataFrame) (date_col : option string)
    (pollutants : list string) : list (line_kind * string) :=
  if has_dates df date_col && (8 <=? len df)%nat then
    let q := (len df / 4)%nat in
    match trend_msgs (DataFrame_head q df) (DataFrame_tail q df) pollutants with
    | [] => []
    | msgs => [(Trends, "Simple trends: " ++ join "; " msgs)]
    end
  else [].

(** lines 39-42 *)
Definition date_range_lines (df : DataFrame) (date_col : option string)
  : list (line_kind * string) :=
  match date_col with
  | Some c =>
      if notna_any (date_values df c)
      then [(DateRange, date_range_line (date_values df c))]
      else []
  | None => []
  end.

(** lines 37-69: the lines of the report, in order. *)
Definition describe (df : DataFrame) (date_col : option string)
  : list (line_kind * string) :=
  let pollutants := find_pollutants df in
  let desc := (Rows, "Rows: " ++ nat_str (len df)) :: date_range_lines df date_col in
  match pollutants with
  | _ :: _ =>
      ((desc ++ [(Means, means_line df pollutants)])
         ++ trend_lines df date_col pollutants)%list
  | [] =>
      (desc ++ [(Notice, NOTICE); (Preview, to_string false (DataFrame_head 5 df))])%list
  end.

(** lines 25-69: the frame is loaded, relabelled, sorted and described. *)
Definition report (fs : FileSystem) (file_path : string)
  : exc (list (line_kind * string)) :=
  df <- read_csv fs file_path ;;
  let df := normalize_columns df in
  let date_col := find_date_col df in
  df <- parse_dates df date_col ;;
  Ok (describe df date_col).

(** The tool: the lines joined by line feeds (line 71). *)
Definition analyze_air_quality_csv (fs : FileSystem) (file_path : string) : exc string :=
  desc <- report fs file_path ;;
  Ok (join nl (map snd desc)).

End Analysis.

(* ================================================================== *)
(** * Notions derived from the script *)

Fixpoint nodupb (l : list string) : bool :=
  match l with
  | [] => true
  | x :: l' => negb (mem x l') && nodupb l'
  end.

Definition rows_line (n : nat) : string := "Rows: " ++ nat_str n.

Definition trends_line (msgs : list string) : string :=
  "Simple trends: " ++ join "; " msgs.

Section Derived.
Context `{Pandas}.

(** No two columns carry the same label once the labels are normalised: the
    dataset is a mapping from column names to values (section 3 of the
    specification; what happens when labels collide is left open in its
    section 9). *)
Definition distinct_labels (df : DataFrame) : bool :=
  nodupb (columns (normalize_columns df)).

(** The date column of a loaded frame, if it has one. *)
Definition date_column (df0 : DataFrame) : option string :=
  find_date_col (normalize_columns df0).

(** The label of the date column, if there is one, is carried by one column
    only once the labels are normalised. *)
Definition one_date_column (df0 : DataFrame) : bool :=
  match date_column df0 with
  | Some c => (List.length (getitem (normalize_columns df0) c) =? 1)%nat
  | None => true
  end.

(** The frame that is described: relabelled, and sorted when it has a date
    column. *)
Definition prepared (df0 : DataFrame) : exc DataFrame :=
  parse_dates (normalize_columns df0) (date_column df0).

(** The parsed dates of the rows, in load order. *)
Definition parsed_dates (df0 : DataFrame) (c : string) : list (option Z) :=
  match getitem (normalize_columns df0) c with
  | [s] => to_datetime s
  | _ => []
  end.

(** The frame with its dates parsed, before it is sorted. *)
Definition dated (df0 : DataFrame) (c : string) : DataFrame :=
  setitem (normalize_columns df0) c (Datetime64 (parsed_dates df0 c)).

(** The trend messages of a frame: the loop of lines 53-64 on its first and
    last quarter. *)
Definition quartile_msgs (df : DataFrame) : list string :=
  let q := (len df / 4)%nat in
  trend_msgs (DataFrame_head q df) (DataFrame_tail q df) (find_pollutants df).

(** What follows the row count and the date range. *)
Definition report_body (df : DataFrame) (dc : option string) : list (line_kind * string) :=
  match find_pollutants df with
  | [] => [(Notice, NOTICE); (Preview, to_string false (DataFrame_head 5 df))]
  | ps => (Means, means_line df ps) :: trend_lines df dc ps
  end.

(** line 45: the dict of the means. *)
Definition means_dict (df : DataFrame) : list (string * float) :=
  to_dict (mean_numeric_only (select df (find_pollutants df))).

End Derived.

(** The last numeric column that carries a label, if any. *)
Definition last_numeric (df : DataFrame) (label : string) : option Series :=
  option_map snd
    (find (fun c => String.eqb (fst c) label && is_numeric (snd c)) (rev (cols df))).

(** The value bound to a key in a dict. *)
Definition dict_get {V : Type} (d : list (string * V)) (k : string) : option V :=
  option_map snd (find (fun kv => String.eqb (fst kv) k) d).

(** The rows between the head and the tail of [n / 4] rows. *)
Definition middle {A : Type} (l : list A) : list A :=
  let q := (List.length l / 4)%nat in
  firstn (List.length l - 2 * q) (skipn q l).

(** The kinds of line a report can be made of, in order. *)
Definition REPORT_SHAPES : list (list line_kind) :=
  [[Rows; Notice; Preview];
   [Rows; DateRange; Notice; Preview];
   [Rows; Means];
   [Rows; DateRange; Means];
   [Rows; DateRange; Means; Trends]].

(* ================================================================== *)
(** * The report in the words of the specification *)

(** What a row holds in a column: an integer, a float, a truth value,
    nothing, text, or (once parsed) a timestamp. *)
Inductive cell : Type :=
| Int (z : Z)
| Num (x : float)
| Flag (b : bool)
| Missing
| Text (s : string)
| Time (t : Z).

Definition cells (s : Series) : list cell :=
  match s with
  | Int64 v => map Int v
  | Float64 v => map (fun x => if isna x then Missing else Num x) v
  | Boolean v => map Flag v
  | Object v => map (fun o => match o with Some t => Text t | None => Missing end) v
  | ObjectBool v => map (fun o => match o with Some b => Flag b | None => Missing end) v
  | Datetime64 v => map (fun o => match o with Some t => Time t | None => Missing end) v
  end.

(** The cells of row [k], column by column. *)
Definition row (df : DataFrame) (k : nat) : list (option cell) :=
  map (fun c => nth_error (cells (snd c)) k) (cols df).

Definition is_text (c : cell) : bool :=
  match c with
  | Text _ => true
  | _ => false
  end.

(** The number that a cell holds, as a float64. *)
Definition number_of (c : cell) : option float :=
  match c with
  | Int z => Some (Z_to_float z)
  | Num x => Some x
  | Flag b => Some (Z_to_float (Z.b2z b))
  | Missing | Text _ | Time _ => None
  end.

Definition holds_number (c : cell) : bool :=
  match number_of c with
  | Some _ => true
  | None => false
  end.

(** What a cell adds to the sum of its column: its number, or nothing. *)
Definition contribution (c : cell) : float :=
  match number_of c with
  | Some x => x
  | None => PrimFloat.zero
  end.




Section Specification.
Context `{Pandas}.

(** The float64 mean of a column over the rows that hold a number: the sum
    of what the rows add, over the number of rows that hold a number.  It is
    NaN without such a row. *)
Definition skip_missing_mean (s : Series) : float :=
  match List.length (filter holds_number (cells s)) with
  | O => PrimFloat.nan
  | n => PrimFloat.div (fsum (map contribution (cells s))) (Z_to_float (Z.of_nat n))
  end.

(** The column labelled [c] was read as numbers. *)
Definition reads_as_numbers (df : DataFrame) (c : string) : bool :=
  match getitem df c with
  | [s] => is_numeric s
  | _ => false
  end.

(** The mean of the column labelled [c], when the frame has one and it was
    read as numbers; NaN stands for no mean. *)
Definition spec_column_mean (df : DataFrame) (c : string) : float :=
  match getitem df c with
  | [s] => if is_numeric s then skip_missing_mean s else PrimFloat.nan
  | _ => PrimFloat.nan
  end.

Definition spec_mean_entry (df : DataFrame) (c : string) : string :=
  c ++ "=" ++ fmt_float (spec_column_mean df c).

(** Step 8a: one entry per pollutant column read as numbers, in vocabulary
    order. *)
Definition spec_means_line (df : DataFrame) : string :=
  "Means: " ++ join "; " (map (spec_mean_entry df) (filter (reads_as_numbers df) VOCABULARY)).





End Specification.

(* ================================================================== *)
(** * A small pandas

    An instance of the interface for comma-separated ASCII files without
    quoting, whose lines end with a line feed, whose header holds distinct
    labels and whose rows are no longer than the header; the cells are
    integers, decimals of a few digits, [True] or [False], text, or empty,
    and the dates are written [YYYY-MM-DD]: enough to run the sample file
    that app.py writes when nothing is uploaded.  It is not pandas on other
    files.  Its sort is stable and its sum goes from left to right. *)

(** Insertion into a list sorted by key; an element goes before the ones
    with an equal key. *)
Fixpoint insert_by_key (x : nat * Z) (l : list (nat * Z)) : list (nat * Z) :=
  match l with
  | [] => [x]
  | y :: l' => if snd x <=? snd y then x :: l else y :: insert_by_key x l'
  end.

(** Sort by key; positions with equal keys stay in their original order. *)
Definition sort_by_key (l : list (nat * Z)) : list (nat * Z) :=
  fold_right insert_by_key [] l.

(** The order of the keys. *)
Definition key_le (x y : nat * Z) : Prop := snd x <= snd y.

Fixpoint floats_eqb (a b : list float) : bool :=
  match a, b with
  | [], [] => true
  | x :: a', y :: b' => PrimFloat.Leibniz.eqb x y && floats_eqb a' b'
  | _, _ => false
  end.

Module Simple.

(** A stable argsort. *)
Definition argsort (ks : list Z) : list nat := map fst (sort_by_key (enumerate ks)).

(** The sum from left to right.  Integers that are exactly summable are
    added as integers: the float additions would give the same, each being
    exact. *)
Definition fsum (xs : list float) : float :=
  let zs := map float_to_Z xs in
  if floats_eqb (map Z_to_float zs) xs && exactly_summable zs
  then Z_to_float (Zsum zs)
  else fold_left PrimFloat.add xs PrimFloat.zero.

Fixpoint split (sep : ascii) (s : string) : list string :=
  match s with
  | EmptyString => [EmptyString]
  | String c s' =>
      if Ascii.eqb c sep then EmptyString :: split sep s'
      else match split sep s' with
           | w :: ws => String c w :: ws
           | [] => [String c EmptyString]
           end
  end.

Definition is_digit (c : ascii) : bool :=
  let n := nat_of_ascii c in ((48 <=? n) && (n <=? 57))%nat.

(** The value of a string of digits; [None] when it is empty or holds
    something else. *)
Fixpoint digits_value (acc : Z) (s : string) : option Z :=
  match s with
  | EmptyString => Some acc
  | String c s' =>
      if is_digit c then digits_value (10 * acc + Z.of_nat (nat_of_ascii c - 48)) s'
      else None
  end.

Definition parse_nat (s : string) : option Z :=
  match s with
  | EmptyString => None
  | _ => digits_value 0 s
  end.

Definition parse_int (s : string) : option Z :=
  match s with
  | String "-" s' => option_map Z.opp (parse_nat s')
  | _ => parse_nat s
  end.

(** The cells that pandas reads as missing. *)
Definition NA_VALUES : list string :=
  [""; "#N/A"; "#N/A N/A"; "#NA"; "-1.#IND"; "-1.#QNAN"; "-NaN"; "-nan";
   "1.#IND"; "1.#QNAN"; "<NA>"; "N/A"; "NA"; "NULL"; "NaN"; "None"; "n/a";
   "nan"; "null"].

(** A missing value, an integer, digits on both sides of one point (the
    quotient of two integers that are floats, rounded once), or an infinity. *)
Definition parse_float (s : string) : option float :=
  if mem s NA_VALUES then Some PrimFloat.nan
  else if String.eqb s "inf" then Some PrimFloat.infinity
  else if String.eqb s "-inf" then Some PrimFloat.neg_infinity
  else
    match parse_int s with
    | Some z => Some (Z_to_float z)
    | None =>
        match split "." s with
        | [a; b] =>
            match parse_int a, parse_nat b with
            | Some ip, Some fp =>
                let scale := 10 ^ Z.of_nat (String.length b) in
                let mag := Z.abs ip * scale + fp in
                let neg := match a with String "-" _ => true | _ => false end in
                if (mag <? 2 ^ 53) && (scale <? 10 ^ 23) then
                  Some (PrimFloat.div (Z_to_float (if neg then - mag else mag))
                                      (Z_to_float scale))
                else None
            | _, _ => None
            end
        | _ => None
        end
    end.

Definition parse_bool (s : string) : option bool :=
  if mem s ["True"; "TRUE"; "true"] then Some true
  else if mem s ["False"; "FALSE"; "false"] then Some false
  else None.

Fixpoint all_some {A : Type} (l : list (option A)) : option (list A) :=
  match l with
  | [] => Some []
  | Some x :: l' => option_map (cons x) (all_some l')
  | None :: _ => None
  end.

(** A truth value or a missing cell. *)
Definition parse_bool_na (s : string) : option (option bool) :=
  if mem s NA_VALUES then Some None else option_map Some (parse_bool s).

(** The dtype of a column of cells: without rows it is [object]; a missing
    cell is NaN, which an integer or boolean column cannot hold. *)
Definition infer (cells : list string) : Series :=
  match cells with
  | [] => Object []
  | _ =>
      match all_some (map parse_int cells) with
      | Some zs => Int64 zs
      | None =>
          match all_some (map parse_float cells) with
          | Some xs => Float64 xs
          | None =>
              match all_some (map parse_bool cells) with
              | Some bs => Boolean bs
              | None =>
                  match all_some (map parse_bool_na cells) with
                  | Some os => ObjectBool os
                  | None =>
                      Object (map (fun c => if mem c NA_VALUES then None else Some c) cells)
                  end
              end
          end
      end
  end.

Definition parse_csv (text : string) : exc DataFrame :=
  match filter (fun l => negb (String.eqb l "")) (split (ascii_of_nat 10) text) with
  | [] => Raise "EmptyDataError"
  | header :: lines =>
      let labels := split "," header in
      let rows := map (split ",") lines in
      if forallb (fun r => (List.length r <=? List.length labels)%nat) rows then
        Ok {| index := seq 0 (List.length rows);
              cols := map (fun jl => (snd jl, infer (map (fun r => nth (fst jl) r "") rows)))
                          (enumerate labels) |}
      else Raise "ParserError"
  end.

Definition days_in_month (y m : Z) : Z :=
  if (m =? 2) then
    if ((y mod 4 =? 0) && negb (y mod 100 =? 0) || (y mod 400 =? 0))%bool then 29 else 28
  else if ((m =? 4) || (m =? 6) || (m =? 9) || (m =? 11))%bool then 30 else 31.

(** A date written [YYYY-MM-DD], at midnight. *)
Definition parse_date (s : string) : option Z :=
  match split "-" s with
  | [ys; ms; ds] =>
      if ((String.length ys =? 4) && (String.length ms =? 2) && (String.length ds =? 2))%nat
      then
        match parse_nat ys, parse_nat ms, parse_nat ds with
        | Some y, Some m, Some d =>
            if ((1 <=? m) && (m <=? 12) && (1 <=? d) && (d <=? days_in_month y m))%bool
            then Some (days_from_civil y m d * NS_PER_DAY)
            else None
        | _, _, _ => None
        end
      else None
  | _ => None
  end.

(** Text is read as a date, a datetime column is kept, an integer is a
    number of nanoseconds; floats and truth values are not modelled and give
    NaT. *)
Definition to_datetime (s : Series) : list (option Z) :=
  match s with
  | Object v => map (fun o => match o with Some t => parse_date t | None => None end) v
  | Datetime64 v => v
  | Int64 v => map Some v
  | Float64 v => map (fun _ => None) v
  | Boolean v => map (fun _ => None) v
  | ObjectBool v => map (fun _ => None) v
  end.

Definition cell_strs (s : Series) : list string :=
  match s with
  | Int64 v => map Z_str v
  | Float64 v => map (fun x => if isna x then "NaN" else fmt_float x) v
  | Boolean v => map (fun b : bool => if b then "True" else "False") v
  | Object v => map (fun o => match o with Some t => t | None => "NaN" end) v
  | ObjectBool v =>
      map (fun o => match o with Some true => "True" | Some false => "False" | None => "NaN" end) v
  | Datetime64 v => map (fun o => match o with Some t => date_str t | None => "NaT" end) v
  end.

Fixpoint spaces (n : nat) : string :=
  match n with
  | O => EmptyString
  | S k => String " " (spaces k)
  end.

Definition rjust (w : nat) (s : string) : string := spaces (w - String.length s) ++ s.

(** A fixed-width table, cells flushed right, one line per row under the
    header; the row labels come first when the index is asked for.  Floats
    are shown with two decimals: pandas chooses the number of decimals column
    by column, so on a column of floats this is not its rendering. *)
Definition to_string (with_index : bool) (df : DataFrame) : string :=
  let named := if with_index then ("", map nat_str (index df)) :: map (fun c => (fst c, cell_strs (snd c))) (cols df)
               else map (fun c => (fst c, cell_strs (snd c))) (cols df) in
  let padded := map (fun c =>
                       let w := fold_right Nat.max (String.length (fst c)) (map String.length (snd c)) in
                       (rjust w (fst c), map (rjust w) (snd c))) named in
  let line i := join " " (map (fun c => nth i (snd c) "") padded) in
  join nl (join " " (map fst padded) :: map line (seq 0 (len df))).

End Simple.

(* ================================================================== *)
(** * Files *)

(** The sample that app.py writes to a temporary file (lines 235-241). *)
Definition sample_csv : string :=
  join nl ["date,pm25,pm10,no2";
           "2025-01-01,65,118,40";
           "2025-03-01,58,100,38";
           "2025-05-01,50,92,35";
           "2025-07-01,44,85,32"] ++ nl.

(** A file system holding one file. *)
Definition one_file (path text : string) : FileSystem :=
  fun p => if String.eqb p path then Some text else None.

(** The frame that pandas reads from the sample: the dates as text, the
    measurements as integers. *)
Definition sample_frame : DataFrame :=
  {| index := [0; 1; 2; 3]%nat;
     cols := [("date", Object [Some "2025-01-01"; Some "2025-03-01";
                               Some "2025-05-01"; Some "2025-07-01"]);
              ("pm25", Int64 [65; 58; 50; 44]);
              ("pm10", Int64 [118; 100; 92; 85]);
              ("no2", Int64 [40; 38; 35; 32])] |}.

(** Midnight of the four dates. *)
Definition sample_dates : list (option Z) :=
  map (fun m => Some (days_from_civil 2025 m 1 * NS_PER_DAY)) [1; 3; 5; 7].

Definition sample_lines : list (line_kind * string) :=
  [(Rows, "Rows: 4");
   (DateRange, "Date range: 2025-01-01 → 2025-07-01");
   (Means, "Means: pm25=54.25; pm10=98.75; no2=36.25")].

(** Eight rows in no order, one date that cannot be read, labels to
    normalise, a text column ([co]) and a missing value. *)
Definition trend_csv : string :=
  join nl ["Date, PM25 ,co,pm10,O3";
           "2025-08-01,44,low,85,7.5";
           "2025-01-01,65,high,118,7.5";
           "2025-02-01,58,high,100,8";
           "2025-03-01,50,low,92,";
           "2025-04-01,44,low,85,9.25";
           "2025-05-01,65,high,118,7";
           "2025-06-01,58,high,100,8";
           "not a date,50,low,92,1"] ++ nl.

(** Six rows without a pollutant column. *)
Definition plain_csv : string :=
  join nl ["Day,Site,Reading";
           "2025-01-06,north,5";
           "2025-01-02,south,";
           "2025-01-03,north,7";
           "2025-01-05,east,2";
           "2025-01-04,west,9";
           "2025-01-01,west,4"] ++ nl.

(** Pollutant columns that hold text only. *)
Definition text_csv : string :=
  join nl ["date,pm25,aqi";
           "2025-01-02,high,good";
           "2025-01-01,low,bad"] ++ nl.

(** A pollutant column without a value in any row. *)
Definition blank_csv : string :=
  join nl ["site,pm25";
           "north,";
           "south,"] ++ nl.

(** The same with a date column and another pollutant. *)
Definition blank_aqi_csv : string :=
  join nl ["date,site,aqi";
           "2025-01-02,north,";
           "2025-01-01,south,"] ++ nl.

(** Two columns whose labels both normalise to [date], and no pollutant. *)
Definition two_dates_csv : string :=
  join nl ["Date,date,x";
           "2025-01-02,2025-01-02,1"] ++ nl.

(** A header and no row. *)
Definition empty_csv : string := "date,pm25" ++ nl.

(** Eight rows whose last two measurements are above the first two by one
    millionth, as written. *)
Definition close_csv : string :=
  join nl ["date,pm25";
           "2025-01-01,1";
           "2025-01-02,1";
           "2025-01-03,1";
           "2025-01-04,1";
           "2025-01-05,1";
           "2025-01-06,1";
           "2025-01-07,1.000001";
           "2025-01-08,1.000001"] ++ nl.

(** Eight rows with a column of truth values ([co]), one of them missing. *)
Definition truth_csv : string :=
  join nl ["date,pm25,co";
           "2025-01-01,1,True";
           "2025-01-02,2,True";
           "2025-01-03,3,";
           "2025-01-04,4,False";
           "2025-01-05,5,True";
           "2025-01-06,6,False";
           "2025-01-07,7,False";
           "2025-01-08,8,False"] ++ nl.

Definition loaded (text : string) : DataFrame :=
  match Simple.parse_csv text with
  | Ok df => df
  | Raise _ => {| index := []; cols := [] |}
  end.

Definition trend_frame : DataFrame := Eval vm_compute in loaded trend_csv.
Definition plain_frame : DataFrame := Eval vm_compute in loaded plain_csv.
Definition text_frame : DataFrame := Eval vm_compute in loaded text_csv.
Definition blank_frame : DataFrame := Eval vm_compute in loaded blank_csv.
Definition blank_aqi_frame : DataFrame := Eval vm_compute in loaded blank_aqi_csv.
Definition two_dates_frame : DataFrame := Eval vm_compute in loaded two_dates_csv.
Definition empty_frame : DataFrame := Eval vm_compute in loaded empty_csv.

(** The columns of [trend_frame] in the opposite order. *)
Definition reversed_frame : DataFrame :=
  {| index := index trend_frame; cols := rev (cols trend_frame) |}.

(** Two columns that normalise to [pm25], the second one after a text column
    of the same label. *)
Definition repeated_frame : DataFrame :=
  {| index := [0; 1]%nat;
     cols := [("pm25", Int64 [1; 3]);
              ("pm25", Object [Some "a"; Some "b"]);
              ("pm25", Int64 [10; 20]);
              ("pm25", Object [Some "c"; Some "d"])] |}.

(* ================================================================== *)
(** * Around the tool: the requests and the file analysed

    [run_data] (lines 176-180) and [synthesize] (lines 183-195) hand a
    request to an agent and return its answer; the page (lines 229-288)
    chooses the bytes that are written to the file handed to [run_data].  The
    agents are language-model calls: only the requests are modelled, and the
    answer as the text the agent gives back. *)

(** What [agent.run] returns: [content] is [str(resp.content)] when the
    object has the attribute, [as_str] is [str(resp)]. *)
Record RunResponse : Type := {
  content : option string;
  as_str : string
}.

(** [str(resp.content) if hasattr(resp, "content") else str(resp)] *)
Definition response_text (resp : RunResponse) : string :=
  match content resp with
  | Some c => c
  | None => as_str resp
  end.

(** [agent.run] *)
Definition Agent : Type := string -> RunResponse.

(** line 179: the request of [run_data]. *)
Definition run_data_prompt (csv_path : string) : string :=
  "analyze the CSV at path '" ++ csv_path ++ "' using analyze_air_quality_csv".

Definition run_data (agent : Agent) (csv_path : string) : string :=
  response_text (agent (run_data_prompt csv_path)).

(** lines 185-193: the request of [synthesize]. *)
Definition synthesize_prompt (news policy data innovation city : string) : string :=
  "City: " ++ city ++ nl ++ nl
    ++ "=== News Analyst ===" ++ nl ++ news ++ nl ++ nl
    ++ "=== Policy Reviewer ===" ++ nl ++ policy ++ nl ++ nl
    ++ "=== Data Analyst ===" ++ nl ++ data ++ nl ++ nl
    ++ "=== Innovations Scout ===" ++ nl ++ innovation ++ nl ++ nl
    ++ "Combine the above into a single proposal with the required sections and actionable next steps. "
    ++ "Avoid duplicating links; keep citations inline.".

Definition synthesize (agent : Agent) (news policy data innovation city : string) : string :=
  response_text (agent (synthesize_prompt news policy data innovation city)).

(** The line that opens the section of the policy reviewer in the request. *)
Definition POLICY_HEADER : string := nl ++ nl ++ "=== Policy Reviewer ===" ++ nl.

(** lines 231-252, Single Agent mode: the bytes written to the temporary file
    handed to [run_data], or [None] when the page warns and stops. *)
Definition single_agent_csv (uploaded : option string) (sample_note : bool)
  : option string :=
  match uploaded with
  | None => if sample_note then Some sample_csv else None
  | Some bytes => Some bytes
  end.

(** lines 271-287, Full Task Force mode: the bytes written to the temporary
    file handed to [run_data]. *)
Definition task_force_csv (uploaded : option string) (sample_note : bool) : string :=
  match uploaded with
  | None => sample_csv
  | Some bytes => bytes
  end.

(* ================================================================== *)
(** * Lists: positions, permutations, sorting *)

Section ListFacts.
Context {A : Type}.

Lemma take_app (i1 i2 : list nat) (l : list A) :
  take (i1 ++ i2) l = (take i1 l ++ take i2 l)%list.
Proof. unfold take. apply flat_map_app. Qed.

Lemma take_nil (idx : list nat) : take idx (@nil A) = [].
Proof.
  unfold take. induction idx as [| i idx IH]; [reflexivity|].
  simpl. rewrite IH. now destruct i.
Qed.

Lemma take_seq_suffix (l1 l2 : list A) :
  take (seq (List.length l1) (List.length l2)) (l1 ++ l2) = l2.
Proof.
  revert l1. induction l2 as [| x l2 IH]; intros l1; [reflexivity|].
  simpl. rewrite nth_error_app2 by lia. rewrite Nat.sub_diag. simpl. f_equal.
  specialize (IH (l1 ++ [x])%list).
  rewrite length_app, <- app_assoc in IH. simpl in IH.
  rewrite Nat.add_1_r in IH. exact IH.
Qed.

Lemma take_seq_all (l : list A) : take (seq 0 (List.length l)) l = l.
Proof. exact (take_seq_suffix [] l). Qed.

(** Taking along a permutation of the positions permutes the list. *)
Lemma take_Permutation (idx : list nat) (l : list A) :
  Permutation idx (seq 0 (List.length l)) -> Permutation (take idx l) l.
Proof.
  intros P. rewrite <- (take_seq_all l) at 2.
  unfold take. now apply Permutation_flat_map.
Qed.

Lemma take_length (idx : list nat) (l : list A) :
  Permutation idx (seq 0 (List.length l)) -> List.length (take idx l) = List.length l.
Proof. intros P. apply Permutation_length. now apply take_Permutation. Qed.

Lemma In_take (idx : list nat) (l : list A) (x : A) : In x (take idx l) -> In x l.
Proof.
  unfold take. rewrite in_flat_map. intros [i [_ Hx]].
  destruct (nth_error l i) as [y|] eqn:E; [|contradiction].
  destruct Hx as [<- | []]. now apply nth_error_In in E.
Qed.

Lemma enumerate_from_nth (a : nat) (l : list A) (i : nat) (x : A) :
  In (i, x) (combine (seq a (List.length l)) l) ->
  (a <= i)%nat /\ nth_error l (i - a) = Some x.
Proof.
  revert a. induction l as [| y l IH]; intros a Hin; simpl in Hin; [contradiction|].
  destruct Hin as [E | Hin].
  - inversion E; subst. rewrite Nat.sub_diag. split; [lia | reflexivity].
  - apply IH in Hin. destruct Hin as [Hle Hn]. split; [lia|].
    replace (i - a)%nat with (S (i - S a)) by lia. exact Hn.
Qed.

Lemma enumerate_nth (l : list A) (i : nat) (x : A) :
  In (i, x) (enumerate l) -> nth_error l i = Some x.
Proof.
  intros Hin. apply enumerate_from_nth in Hin.
  now rewrite Nat.sub_0_r in Hin.
Qed.

Lemma enumerate_fst (l : list A) : map fst (enumerate l) = seq 0 (List.length l).
Proof.
  unfold enumerate. generalize 0%nat.
  induction l as [| x l IH]; intros a; simpl; [reflexivity|]. now rewrite IH.
Qed.

Lemma enumerate_Forall (l : list A) :
  Forall (fun p => nth_error l (fst p) = Some (snd p)) (enumerate l).
Proof. apply Forall_forall. intros [i x] Hin. now apply enumerate_nth. Qed.

(** Taking at the positions of pairs that hold their value gives the values. *)
Lemma take_pairs (v : list A) (l : list (nat * A)) :
  Forall (fun p => nth_error v (fst p) = Some (snd p)) l ->
  take (map fst l) v = map snd l.
Proof.
  induction 1 as [| p l Hp _ IH]; simpl; [reflexivity|].
  rewrite Hp. simpl. f_equal. exact IH.
Qed.

Lemma lastn_length (n : nat) (l : list A) :
  List.length (lastn n l) = Nat.min n (List.length l).
Proof. unfold lastn. rewrite length_skipn. lia. Qed.

Lemma nth_error_take (idx : list nat) (l : list A) (k j : nat) :
  Forall (fun i => (i < List.length l)%nat) idx ->
  nth_error idx k = Some j ->
  nth_error (take idx l) k = nth_error l j.
Proof.
  intros F. revert k. induction F as [| i idx Hi F IH]; intros k E.
  - destruct k; discriminate.
  - unfold take in *. simpl.
    destruct (nth_error l i) as [x|] eqn:Ei.
    + destruct k as [| k]; simpl in *.
      * inversion E; subst. now symmetry.
      * now apply IH.
    + apply nth_error_None in Ei. lia.
Qed.

End ListFacts.

Lemma take_map {A B : Type} (f : A -> B) (idx : list nat) (l : list A) :
  take idx (map f l) = map f (take idx l).
Proof.
  unfold take. induction idx as [| i idx IH]; [reflexivity|].
  simpl. rewrite map_app, IH, nth_error_map. now destruct (nth_error l i).
Qed.

Lemma Permutation_seq_bound (idx : list nat) (n : nat) :
  Permutation idx (seq 0 n) -> Forall (fun i => (i < n)%nat) idx.
Proof.
  intros P. apply Forall_forall. intros i Hi.
  apply (Permutation_in _ P) in Hi. apply in_seq in Hi. lia.
Qed.

Lemma insert_by_key_Permutation (x : nat * Z) (l : list (nat * Z)) :
  Permutation (insert_by_key x l) (x :: l).
Proof.
  induction l as [| y l IH]; simpl; [reflexivity|].
  destruct (snd x <=? snd y); [reflexivity|].
  rewrite IH. apply perm_swap.
Qed.

Lemma sort_by_key_Permutation (l : list (nat * Z)) : Permutation (sort_by_key l) l.
Proof.
  induction l as [| x l IH]; simpl; [reflexivity|].
  rewrite insert_by_key_Permutation. now constructor.
Qed.

Lemma insert_by_key_Sorted (x : nat * Z) (l : list (nat * Z)) :
  Sorted key_le l -> Sorted key_le (insert_by_key x l).
Proof.
  induction l as [| y l IH]; intros S; simpl.
  - repeat constructor.
  - destruct (snd x <=? snd y) eqn:E.
    + constructor; [exact S|]. constructor. unfold key_le. lia.
    + inversion S as [| ? ? S' Hd]; subst.
      constructor; [now apply IH|].
      destruct l as [| z l]; simpl.
      * constructor. unfold key_le. lia.
      * destruct (snd x <=? snd z); constructor; unfold key_le.
        -- lia.
        -- now inversion Hd.
Qed.

Lemma sort_by_key_Sorted (l : list (nat * Z)) : Sorted key_le (sort_by_key l).
Proof.
  induction l as [| x l IH]; simpl; [constructor|].
  now apply insert_by_key_Sorted.
Qed.

Lemma Sorted_map_snd (l : list (nat * Z)) : Sorted key_le l -> Sorted Z.le (map snd l).
Proof.
  induction 1 as [| x l S IH Hd]; simpl; constructor; [exact IH|].
  destruct Hd; simpl; constructor. assumption.
Qed.

Lemma split_nan_Permutation (e : list (nat * option Z)) :
  Permutation (map fst (non_nan_of e) ++ nan_of e) (map fst e).
Proof.
  induction e as [| [i [k|]] e IH]; simpl; [reflexivity | |].
  - now constructor.
  - rewrite <- Permutation_middle. now constructor.
Qed.

Lemma take_nan (v : list (option Z)) (l : list nat) :
  Forall (fun i => nth_error v i = Some None) l ->
  take l v = repeat None (List.length l).
Proof.
  induction 1 as [| i l Hi _ IH]; simpl; [reflexivity|].
  rewrite Hi. simpl. f_equal. exact IH.
Qed.

Lemma non_nan_of_nth (v : list (option Z)) :
  Forall (fun p => nth_error v (fst p) = Some (Some (snd p))) (non_nan_of (enumerate v)).
Proof.
  apply Forall_forall. intros [i k] Hin.
  apply in_flat_map in Hin. destruct Hin as [[j o] [Hin Hp]].
  destruct o as [k'|]; simpl in Hp; [|contradiction].
  destruct Hp as [E|[]]. inversion E; subst. simpl.
  now apply enumerate_nth.
Qed.

Lemma nan_of_nth (v : list (option Z)) :
  Forall (fun i => nth_error v i = Some None) (nan_of (enumerate v)).
Proof.
  apply Forall_forall. intros i Hin.
  apply in_flat_map in Hin. destruct Hin as [[j o] [Hin Hp]].
  destruct o as [k'|]; simpl in Hp; [contradiction|].
  destruct Hp as [E|[]]. subst. now apply enumerate_nth.
Qed.

(** Two ascending lists with the same elements are the same list. *)
Lemma Sorted_Permutation_eq (l l' : list Z) :
  Sorted Z.le l -> Sorted Z.le l' -> Permutation l l' -> l = l'.
Proof.
  intros S S'. apply Sorted_StronglySorted in S; [|intros x y z; apply Z.le_trans].
  apply Sorted_StronglySorted in S'; [|intros x y z; apply Z.le_trans].
  revert l' S'. induction S as [| a l S IH Ha]; intros l' S' P.
  - now apply Permutation_nil in P.
  - destruct S' as [| b l' S' Hb].
    + now apply Permutation_sym, Permutation_nil in P.
    + assert (E : a = b).
      { apply Z.le_antisymm.
        - assert (I : In b (a :: l)) by (apply (Permutation_in _ (Permutation_sym P)); now left).
          destruct I as [-> | I]; [lia|]. rewrite Forall_forall in Ha. now apply Ha.
        - assert (I : In a (b :: l')) by (apply (Permutation_in _ P); now left).
          destruct I as [-> | I]; [lia|]. rewrite Forall_forall in Hb. now apply Hb. }
      subst b. f_equal. apply IH; [exact S'|]. now apply Permutation_cons_inv in P.
Qed.

(** Positions at which a list without repeats holds the same values are the
    same positions. *)
Lemma take_injective {A : Type} (l : list A) (p q : list nat) :
  NoDup l ->
  Forall (fun i => (i < List.length l)%nat) p ->
  Forall (fun i => (i < List.length l)%nat) q ->
  take p l = take q l -> p = q.
Proof.
  intros ND Fp. revert q. induction Fp as [| i p Hi Fp IH]; intros q Fq E.
  - destruct Fq as [| j q Hj Fq]; [reflexivity|].
    unfold take in E. simpl in E.
    destruct (nth_error l j) eqn:Ej; [discriminate|].
    apply nth_error_None in Ej. lia.
  - destruct Fq as [| j q Hj Fq].
    + unfold take in E. simpl in E.
      destruct (nth_error l i) eqn:Ei; [discriminate|].
      apply nth_error_None in Ei. lia.
    + unfold take in E. simpl in E.
      destruct (nth_error l i) as [x|] eqn:Ei; [|apply nth_error_None in Ei; lia].
      destruct (nth_error l j) as [y|] eqn:Ej; [|apply nth_error_None in Ej; lia].
      simpl in E. inversion E as [[Exy E']]. subst y.
      assert (i = j).
      { rewrite NoDup_nth_error in ND. apply ND; [exact Hi | congruence]. }
      subst j. f_equal. now apply IH.
Qed.

Lemma StronglySorted_lt_NoDup (l : list Z) : StronglySorted Z.lt l -> NoDup l.
Proof.
  induction 1 as [| a l S IH Ha]; constructor; [|exact IH].
  intros I. rewrite Forall_forall in Ha. specialize (Ha a I). lia.
Qed.

Lemma StronglySorted_lt_le (l : list Z) : StronglySorted Z.lt l -> Sorted Z.le l.
Proof.
  intros S. apply StronglySorted_Sorted.
  induction S as [| a l S IH Ha]; constructor; [exact IH|].
  eapply Forall_impl; [|exact Ha]. intros x Hx. lia.
Qed.

(** ** Sums of integers *)

Lemma Zsum_app (a b : list Z) : Zsum (a ++ b) = Zsum a + Zsum b.
Proof. induction a as [| x a IH]; simpl; [reflexivity|]. rewrite IH. lia. Qed.

Lemma Zsum_Permutation (a b : list Z) : Permutation a b -> Zsum a = Zsum b.
Proof. induction 1; simpl; lia. Qed.

Lemma forallb_Permutation {A : Type} (f : A -> bool) (a b : list A) :
  Permutation a b -> forallb f a = forallb f b.
Proof.
  induction 1 as [| x l l' P IH | x y l | l l' l'' P1 IH1 P2 IH2]; simpl.
  - reflexivity.
  - now rewrite IH.
  - now rewrite !andb_assoc, (andb_comm (f y)).
  - now rewrite IH1.
Qed.

Lemma exactly_summable_Permutation (a b : list Z) :
  Permutation a b -> exactly_summable a = exactly_summable b.
Proof.
  intros P. unfold exactly_summable.
  rewrite (forallb_Permutation _ _ _ P).
  now rewrite (Zsum_Permutation _ _ (Permutation_map Z.abs P)).
Qed.

(* ================================================================== *)
(** * Floats: NaN and the integers *)

Lemma isna_Prim2SF (x : float) : isna x = true <-> Prim2SF x = S754_nan.
Proof.
  unfold isna, Prim2SF. destruct (is_nan x); [tauto|].
  split; [discriminate|].
  destruct (is_zero x); [discriminate|].
  destruct (is_infinity x); [discriminate|].
  destruct (Z.frexp x) as [r e].
  destruct (shr_fexp _ _ _ _ _) as [s e'].
  destruct (shr_m s); discriminate.
Qed.

Lemma isna_nan : isna PrimFloat.nan = true.
Proof. reflexivity. Qed.

(** The rounding of the specification never yields NaN: the mantissa stays
    non-negative through the shifts. *)
Lemma shr_1_nonneg (mrs : shr_record) : 0 <= shr_m mrs -> 0 <= shr_m (shr_1 mrs).
Proof.
  destruct mrs as [m r s]. simpl.
  destruct m as [| [p | p |] | [p | p |]]; simpl; lia.
Qed.

Lemma iter_pos_invariant {A : Type} (P : A -> Prop) (f : A -> A) :
  (forall x, P x -> P (f x)) -> forall n x, P x -> P (SpecFloat.iter_pos f n x).
Proof. intros Hf. induction n as [n IH | n IH |]; intros x Px; simpl; auto. Qed.

Lemma shr_fexp_nonneg (m e : Z) (l : location) :
  0 <= m -> 0 <= shr_m (fst (shr_fexp prec emax m e l)).
Proof.
  intros Pm. unfold shr_fexp, shr.
  assert (P0 : 0 <= shr_m (shr_record_of_loc m l)).
  { destruct l as [| []]; exact Pm. }
  destruct (fexp prec emax (Zdigits2 m + e) - e) as [| p | p]; try exact P0.
  cbn [fst]. apply (iter_pos_invariant (fun r => 0 <= shr_m r)); [|exact P0].
  apply shr_1_nonneg.
Qed.

Lemma round_nearest_even_nonneg (m : Z) (l : location) :
  0 <= m -> 0 <= round_nearest_even m l.
Proof. intros Pm. destruct l as [| []]; simpl; try lia. destruct (Z.even m); lia. Qed.

Lemma binary_round_aux_not_nan (sx : bool) (mx ex : Z) (lx : location) :
  0 <= mx -> binary_round_aux prec emax sx mx ex lx <> S754_nan.
Proof.
  intros Pm. unfold binary_round_aux.
  pose proof (shr_fexp_nonneg mx ex lx Pm) as P1.
  destruct (shr_fexp prec emax mx ex lx) as [mrs' e']. cbn [fst] in P1.
  pose proof (shr_fexp_nonneg _ e' loc_Exact
                (round_nearest_even_nonneg _ (loc_of_shr_record mrs') P1)) as P2.
  destruct (shr_fexp prec emax _ e' loc_Exact) as [mrs'' e'']. cbn [fst] in P2.
  destruct (shr_m mrs'') as [| p | p]; [discriminate | | lia].
  destruct (e'' <=? emax - prec); discriminate.
Qed.

Lemma binary_round_not_nan (sx : bool) (mx : positive) (ex : Z) :
  binary_round prec emax sx mx ex <> S754_nan.
Proof.
  unfold binary_round. destruct (shl_align _ _ _) as [mz ez].
  apply binary_round_aux_not_nan. lia.
Qed.

Lemma binary_normalize_not_nan (m e : Z) (s : bool) :
  binary_normalize prec emax m e s <> S754_nan.
Proof.
  destruct m; simpl; [discriminate | apply binary_round_not_nan ..].
Qed.

(** An integer is cast to a number, never to NaN. *)
Lemma Z_to_float_notna (z : Z) : isna (Z_to_float z) = false.
Proof.
  destruct (isna (Z_to_float z)) eqn:N; [|reflexivity].
  apply isna_Prim2SF in N. exfalso. revert N. unfold Z_to_float.
  pose proof (binary_normalize_not_nan z 0 false) as NN.
  destruct (binary_normalize prec emax z 0 false) as [s | s | | s m e].
  - destruct s; vm_compute; discriminate.
  - destruct s; vm_compute; discriminate.
  - congruence.
  - clear NN. unfold SF2Prim.
    assert (L : Prim2SF (Z.ldexp (of_uint63 (Uint63.of_Z (Zpos m))) e) <> S754_nan).
    { rewrite Z_ldexp_spec, of_uint63_spec.
      pose proof (binary_normalize_not_nan (Uint63.to_Z (Uint63.of_Z (Z.pos m))) 0 false) as NN.
      destruct (binary_normalize _ _ _ _ _) as [s' | s' | | s' m' e']; simpl;
        try discriminate; [congruence | apply binary_round_not_nan]. }
    destruct s; [|exact L].
    rewrite opp_spec. destruct (Prim2SF _); simpl; try discriminate. congruence.
Qed.

Lemma fill_zero_cast {A : Type} (f : A -> Z) (v : list A) :
  fill_zero (map (fun a => Z_to_float (f a)) v) = map (fun a => Z_to_float (f a)) v.
Proof.
  unfold fill_zero. rewrite map_map. apply map_ext.
  intros a. now rewrite Z_to_float_notna.
Qed.

Lemma count_notna_cast {A : Type} (f : A -> Z) (v : list A) :
  count_notna (map (fun a => Z_to_float (f a)) v) = List.length v.
Proof.
  unfold count_notna. induction v as [| a v IH]; simpl; [reflexivity|].
  rewrite Z_to_float_notna. simpl. now rewrite IH.
Qed.

Lemma floats_eqb_refl (l : list float) : floats_eqb l l = true.
Proof.
  induction l as [| x l IH]; simpl; [reflexivity|].
  rewrite IH, andb_true_r. now apply FloatAxioms.Leibniz.eqb_spec.
Qed.

Lemma exact_cast_b2z (b : bool) : exact_cast (Z.b2z b) = true.
Proof. destruct b; vm_compute; reflexivity. Qed.


(* ================================================================== *)
(** * The small pandas is a pandas *)

Lemma simple_to_datetime_length (s : Series) : List.length (Simple.to_datetime s) = Series_len s.
Proof. destruct s; simpl; now rewrite ?length_map. Qed.

Lemma all_some_length {A : Type} (l : list (option A)) (l' : list A) :
  Simple.all_some l = Some l' -> List.length l' = List.length l.
Proof.
  revert l'; induction l as [| [x|] l IH]; intros l' E; simpl in E.
  - now inversion E.
  - destruct (Simple.all_some l) as [r|]; [|discriminate].
    inversion E; subst; simpl. now rewrite (IH r).
  - discriminate.
Qed.

Lemma infer_length (cells : list string) : Series_len (Simple.infer cells) = List.length cells.
Proof.
  unfold Simple.infer. destruct cells as [| c cells]; [reflexivity|].
  repeat match goal with
         | |- context [match Simple.all_some ?l with _ => _ end] =>
             let E := fresh "E" in
             destruct (Simple.all_some l) eqn:E;
             [apply all_some_length in E; simpl in *; rewrite length_map in E; exact E |]
         end.
  simpl. now rewrite length_map.
Qed.

Lemma simple_parse_csv_rectangular (text : string) (df : DataFrame) :
  Simple.parse_csv text = Ok df -> rectangular df = true.
Proof.
  unfold Simple.parse_csv.
  destruct (filter _ _) as [| header lines]; [discriminate|].
  destruct (forallb _ _); [|discriminate].
  intros E; inversion E; subst; clear E.
  unfold rectangular, len; simpl.
  rewrite forallb_forall. intros c Hc.
  apply in_map_iff in Hc. destruct Hc as [jl [<- _]]. simpl.
  rewrite infer_length, ?length_map, ?length_seq, ?length_map.
  apply Nat.eqb_refl.
Qed.

Lemma simple_argsort_Permutation (ks : list Z) :
  Permutation (Simple.argsort ks) (seq 0 (List.length ks)).
Proof.
  unfold Simple.argsort. rewrite <- enumerate_fst.
  apply Permutation_map, sort_by_key_Permutation.
Qed.

Lemma simple_argsort_Sorted (ks : list Z) : Sorted Z.le (take (Simple.argsort ks) ks).
Proof.
  unfold Simple.argsort. rewrite take_pairs.
  - apply Sorted_map_snd, sort_by_key_Sorted.
  - eapply Permutation_Forall; [|apply enumerate_Forall].
    symmetry. apply sort_by_key_Permutation.
Qed.

Lemma float_to_Z_cast (zs : list Z) :
  forallb exact_cast zs = true -> map float_to_Z (map Z_to_float zs) = zs.
Proof.
  induction zs as [| z zs IH]; simpl; [reflexivity|].
  intros E. apply andb_true_iff in E. destruct E as [E1 E2].
  apply Z.eqb_eq in E1. now rewrite E1, IH.
Qed.

Lemma simple_fsum_exact (zs : list Z) :
  exactly_summable zs = true -> Simple.fsum (map Z_to_float zs) = Z_to_float (Zsum zs).
Proof.
  intros E. unfold Simple.fsum.
  assert (C : forallb exact_cast zs = true)
    by (unfold exactly_summable in E; now apply andb_true_iff in E).
  now rewrite (float_to_Z_cast zs C), floats_eqb_refl, E.
Qed.

Definition SimplePandas : Pandas := {|
  str_strip := strip;
  str_lower := lower;
  str_strip_ascii := fun s _ => eq_refl;
  str_lower_ascii := fun s _ => eq_refl;
  fsum := Simple.fsum;
  fsum_exact := simple_fsum_exact;
  argsort := Simple.argsort;
  argsort_Permutation := simple_argsort_Permutation;
  argsort_Sorted := simple_argsort_Sorted;
  parse_csv := Simple.parse_csv;
  parse_csv_rectangular := simple_parse_csv_rectangular;
  to_datetime := Simple.to_datetime;
  to_datetime_length := simple_to_datetime_length;
  to_string := Simple.to_string
|}.

(** The frame of [trend_csv] as it is described: relabelled, dated, sorted. *)
Definition trend_sorted : DataFrame :=
  Eval vm_compute in
    match @prepared SimplePandas trend_frame with
    | Ok df => df
    | Raise _ => trend_frame
    end.

(* ================================================================== *)
(** * Frames: labels and lookups *)

Lemma mem_In (x : string) (l : list string) : mem x l = true <-> In x l.
Proof.
  unfold mem. rewrite existsb_exists. split.
  - intros [y [Hy E]]. apply String.eqb_eq in E. now subst.
  - intros Hx. exists x. split; [exact Hx | apply String.eqb_refl].
Qed.

Lemma mem_false (x : string) (l : list string) : mem x l = false <-> ~ In x l.
Proof.
  rewrite <- mem_In. destruct (mem x l); split; intros; congruence.
Qed.

Lemma nodupb_NoDup (l : list string) : nodupb l = true -> NoDup l.
Proof.
  induction l as [| x l IH]; simpl; intros E; constructor.
  - apply andb_true_iff in E. destruct E as [E _].
    intros Hin. apply mem_In in Hin. rewrite Hin in E. discriminate.
  - apply IH. now apply andb_true_iff in E.
Qed.

Lemma columns_apply (f : forall A : Type, list A -> list A) (df : DataFrame) :
  columns (DataFrame_apply f df) = columns df.
Proof. unfold columns, DataFrame_apply. simpl. rewrite map_map. reflexivity. Qed.

Lemma columns_setitem (df : DataFrame) (c : string) (s : Series) :
  columns (setitem df c s) = columns df.
Proof.
  unfold columns, setitem. simpl. rewrite map_map. apply map_ext.
  intros x. now destruct (String.eqb (fst x) c).
Qed.

Lemma getitem_apply (f : forall A : Type, list A -> list A) (df : DataFrame) (c : string) :
  getitem (DataFrame_apply f df) c = map (Series_apply f) (getitem df c).
Proof.
  unfold getitem, DataFrame_apply. simpl.
  induction (cols df) as [| x l IH]; simpl; [reflexivity|].
  destruct (String.eqb (fst x) c); simpl; now rewrite IH.
Qed.

Lemma getitem_setitem_same (df : DataFrame) (c : string) (s : Series) :
  getitem (setitem df c s) c = map (fun _ => s) (getitem df c).
Proof.
  unfold getitem, setitem. simpl.
  induction (cols df) as [| x l IH]; simpl; [reflexivity|].
  destruct (String.eqb (fst x) c) eqn:E; simpl; rewrite E; simpl; now rewrite IH.
Qed.

Lemma getitem_setitem_other (df : DataFrame) (c c' : string) (s : Series) :
  String.eqb c' c = false -> getitem (setitem df c s) c' = getitem df c'.
Proof.
  intros Hne. unfold getitem, setitem. simpl.
  induction (cols df) as [| x l IH]; simpl; [reflexivity|].
  destruct (String.eqb (fst x) c) eqn:E; simpl.
  - apply String.eqb_eq in E. rewrite E, String.eqb_sym, Hne. exact IH.
  - destruct (String.eqb (fst x) c'); simpl; now rewrite IH.
Qed.

Lemma filter_label_absent (cs : list (string * Series)) (c : string) :
  ~ In c (map fst cs) -> filter (fun x => String.eqb (fst x) c) cs = [].
Proof.
  induction cs as [| [c' s'] cs IH]; simpl; intros Hni; [reflexivity|].
  destruct (String.eqb c' c) eqn:E.
  - apply String.eqb_eq in E. exfalso. apply Hni. now left.
  - apply IH. intros Hin. apply Hni. now right.
Qed.

(** With distinct labels, a label that is present selects one column. *)
Lemma filter_label_unique (cs : list (string * Series)) (c : string) :
  NoDup (map fst cs) -> In c (map fst cs) ->
  exists s, filter (fun x => String.eqb (fst x) c) cs = [(c, s)].
Proof.
  induction cs as [| [c' s'] cs IH]; simpl; intros ND Hin; [contradiction|].
  inversion ND as [| ? ? Hni ND']; subst.
  destruct (String.eqb c' c) eqn:E.
  - apply String.eqb_eq in E; subst. exists s'. f_equal.
    now apply filter_label_absent.
  - apply String.eqb_neq in E. destruct Hin as [-> | Hin]; [contradiction|].
    now apply IH.
Qed.

Lemma getitem_unique (df : DataFrame) (c : string) :
  NoDup (columns df) -> In c (columns df) -> exists s, getitem df c = [s].
Proof.
  intros ND Hin. destruct (filter_label_unique (cols df) c ND Hin) as [s E].
  exists s. unfold getitem. now rewrite E.
Qed.

Lemma getitem_present (df : DataFrame) (c : string) :
  In c (columns df) -> getitem df c <> [].
Proof.
  unfold columns, getitem. intros Hin E.
  apply in_map_iff in Hin. destruct Hin as [[c' s] [Ec Hin]]. simpl in Ec. subst c'.
  assert (F : In (c, s) (filter (fun x => String.eqb (fst x) c) (cols df))).
  { apply filter_In. split; [exact Hin | apply String.eqb_refl]. }
  destruct (filter _ (cols df)); [contradiction | discriminate].
Qed.

Lemma getitem_In_cols (df : DataFrame) (c : string) (s : Series) :
  In s (getitem df c) <-> In (c, s) (cols df).
Proof.
  unfold getitem. rewrite in_map_iff. split.
  - intros [[c' s'] [E Hin]]. simpl in E. subst s'.
    apply filter_In in Hin. destruct Hin as [Hin Ec]. simpl in Ec.
    apply String.eqb_eq in Ec. now subst c'.
  - intros Hin. exists (c, s). split; [reflexivity|].
    apply filter_In. split; [exact Hin | apply String.eqb_refl].
Qed.

Lemma find_date_col_In (df : DataFrame) (c : string) :
  find_date_col df = Some c -> In c (columns df) /\ In c DATE_CANDIDATES.
Proof.
  intros E. apply find_some in E. destruct E as [Hc Hm].
  split; [now apply mem_In | exact Hc].
Qed.

Lemma len_take (idx : list nat) (df : DataFrame) :
  Permutation idx (seq 0 (len df)) -> len (DataFrame_take idx df) = len df.
Proof. intros P. unfold len, DataFrame_take, DataFrame_apply. simpl. now apply take_length. Qed.

Lemma rectangular_getitem (df : DataFrame) (c : string) (s : Series) :
  rectangular df = true -> In s (getitem df c) -> Series_len s = len df.
Proof.
  unfold rectangular, getitem. rewrite forallb_forall. intros R Hin.
  apply in_map_iff in Hin. destruct Hin as [x [<- Hx]].
  apply filter_In in Hx. destruct Hx as [Hx _].
  apply Nat.eqb_eq. now apply R.
Qed.

Lemma is_numeric_apply (f : forall A : Type, list A -> list A) (s : Series) :
  is_numeric (Series_apply f s) = is_numeric s.
Proof. now destruct s. Qed.

Lemma cells_take (idx : list nat) (s : Series) :
  cells (Series_apply (fun A => @take idx A) s) = take idx (cells s).
Proof. destruct s; simpl; now rewrite take_map. Qed.

Lemma cells_length (s : Series) : List.length (cells s) = Series_len s.
Proof. destruct s; simpl; apply length_map. Qed.

Lemma cells_firstn (n : nat) (s : Series) :
  cells (Series_apply (fun A => @firstn A n) s) = firstn n (cells s).
Proof. destruct s; simpl; now rewrite firstn_map. Qed.

Lemma cells_lastn (n : nat) (s : Series) :
  cells (Series_apply (fun A => @lastn A n) s) = lastn n (cells s).
Proof. destruct s; unfold lastn; simpl; now rewrite skipn_map, length_map. Qed.

Lemma Series_take_seq (s : Series) :
  Series_apply (fun A => @take (seq 0 (Series_len s)) A) s = s.
Proof. destruct s; simpl; now rewrite take_seq_all. Qed.

Lemma Series_len_apply (f : forall A : Type, list A -> list A) (s : Series) (m : nat) :
  (forall (A : Type) (l : list A), List.length l = Series_len s -> List.length (f A l) = m) ->
  Series_len (Series_apply f s) = m.
Proof. intros F. destruct s; simpl; now apply F. Qed.

Lemma rectangular_apply (f : forall A : Type, list A -> list A) (df : DataFrame) (m : nat) :
  (forall (A : Type) (l : list A), List.length l = len df -> List.length (f A l) = m) ->
  rectangular df = true -> rectangular (DataFrame_apply f df) = true.
Proof.
  intros F R. unfold rectangular in *. rewrite forallb_forall in *.
  intros x Hx. unfold DataFrame_apply in Hx. simpl in Hx.
  apply in_map_iff in Hx. destruct Hx as [y [<- Hy]]. simpl.
  specialize (R y Hy). apply Nat.eqb_eq in R. apply Nat.eqb_eq.
  unfold len at 1, DataFrame_apply. simpl.
  rewrite (F nat (index df) eq_refl).
  apply Series_len_apply. intros A l E. apply F. now rewrite E.
Qed.

Lemma rectangular_setitem (df : DataFrame) (c : string) (s : Series) :
  Series_len s = len df -> rectangular df = true -> rectangular (setitem df c s) = true.
Proof.
  intros Ls R. unfold rectangular, setitem, len in *. simpl.
  rewrite forallb_forall in *. intros x Hx.
  apply in_map_iff in Hx. destruct Hx as [y [<- Hy]].
  destruct (String.eqb (fst y) c); simpl; [rewrite Ls; apply Nat.eqb_refl | now apply R].
Qed.

Lemma vocabulary_not_date (p c : string) :
  In p VOCABULARY -> In c DATE_CANDIDATES -> String.eqb c p = false.
Proof.
  unfold VOCABULARY, DATE_CANDIDATES. simpl.
  intros Hp Hc.
  repeat match goal with
         | H : _ \/ _ |- _ => destruct H
         | H : False |- _ => contradiction
         end; subst; reflexivity.
Qed.

Lemma NoDup_VOCABULARY : NoDup VOCABULARY.
Proof. apply nodupb_NoDup. reflexivity. Qed.

Lemma filter_filter_implied {A : Type} (f g : A -> bool) (l : list A) :
  (forall x, f x = true -> g x = true) -> filter f (filter g l) = filter f l.
Proof.
  intros I. induction l as [| x l IH]; [reflexivity|]. simpl.
  destruct (g x) eqn:G; simpl.
  - now rewrite IH.
  - destruct (f x) eqn:F; [|exact IH]. rewrite (I x F) in G. discriminate.
Qed.

Lemma filter_none {A : Type} (f : A -> bool) (l : list A) :
  (forall x, In x l -> f x = false) -> filter f l = [].
Proof.
  induction l as [| x l IH]; intros N; [reflexivity|]. simpl.
  rewrite (N x) by now left. apply IH. intros y Hy. apply N. now right.
Qed.

Lemma find_first {A : Type} (f : A -> bool) (l : list A) :
  match find f l with
  | Some x => exists before after,
                l = (before ++ x :: after)%list /\ f x = true
                /\ forall y, In y before -> f y = false
  | None => forall y, In y l -> f y = false
  end.
Proof.
  induction l as [| a l IH]; simpl; [contradiction|].
  destruct (f a) eqn:Fa.
  - exists [], l. repeat split; auto. contradiction.
  - destruct (find f l) as [x|].
    + destruct IH as [before [after [-> [Fx Hb]]]].
      exists (a :: before), after. repeat split; auto.
      intros y [<- | Hy]; auto.
    + intros y [<- | Hy]; auto.
Qed.

Lemma quartile_partition {A : Type} (l : list A) :
  let q := (List.length l / 4)%nat in
  l = (firstn q l ++ middle l ++ lastn q l)%list
  /\ (List.length l <= 2 * List.length (middle l))%nat.
Proof.
  intros q. unfold middle, lastn. fold q.
  assert (Q : (4 * q <= List.length l)%nat)
    by (subst q; apply Nat.Div0.mul_div_le).
  split.
  - rewrite <- (firstn_skipn q l) at 1. f_equal.
    rewrite <- (firstn_skipn (List.length l - 2 * q) (skipn q l)) at 1. f_equal.
    rewrite skipn_skipn. f_equal. lia.
  - rewrite length_firstn, length_skipn. lia.
Qed.

(* ================================================================== *)
(** * ASCII labels *)

Lemma is_space_lower_char (c : ascii) : is_space (lower_char c) = is_space c.
Proof. destruct c as [[] [] [] [] [] [] [] []]; reflexivity. Qed.

Lemma lower_char_idem (c : ascii) : lower_char (lower_char c) = lower_char c.
Proof. destruct c as [[] [] [] [] [] [] [] []]; reflexivity. Qed.

Lemma lower_char_ascii (c : ascii) :
  (nat_of_ascii (lower_char c) <? 128)%nat = (nat_of_ascii c <? 128)%nat.
Proof. destruct c as [[] [] [] [] [] [] [] []]; reflexivity. Qed.

Lemma lower_idem (s : string) : lower (lower s) = lower s.
Proof. induction s as [| c s IH]; simpl; [reflexivity|]. now rewrite lower_char_idem, IH. Qed.

Lemma lstrip_lower (s : string) : lstrip (lower s) = lower (lstrip s).
Proof.
  induction s as [| c s IH]; simpl; [reflexivity|].
  rewrite is_space_lower_char. now destruct (is_space c).
Qed.

Lemma rstrip_lower (s : string) : rstrip (lower s) = lower (rstrip s).
Proof.
  induction s as [| c s IH]; simpl; [reflexivity|].
  rewrite IH, is_space_lower_char.
  destruct (rstrip s); simpl; [now destruct (is_space c) | reflexivity].
Qed.

Lemma strip_lower (s : string) : strip (lower s) = lower (strip s).
Proof. unfold strip. now rewrite lstrip_lower, rstrip_lower. Qed.

Lemma rstrip_cons (c : ascii) (s : string) :
  rstrip (String c s)
  = match rstrip s with
    | EmptyString => if is_space c then EmptyString else String c EmptyString
    | r => String c r
    end.
Proof. reflexivity. Qed.

Lemma rstrip_idem (s : string) : rstrip (rstrip s) = rstrip s.
Proof.
  induction s as [| c s IH]; [reflexivity|].
  rewrite rstrip_cons. destruct (rstrip s) as [| a r] eqn:E.
  - destruct (is_space c) eqn:Sc; [reflexivity|].
    rewrite rstrip_cons. simpl. now rewrite Sc.
  - rewrite rstrip_cons, IH. reflexivity.
Qed.

Lemma rstrip_keeps_head (c : ascii) (s : string) :
  is_space c = false -> rstrip (String c s) = String c (rstrip s).
Proof. intros Sc. simpl. rewrite Sc. now destruct (rstrip s). Qed.

Lemma lstrip_head (s : string) :
  lstrip s = EmptyString
  \/ exists c r, lstrip s = String c r /\ is_space c = false.
Proof.
  induction s as [| c s IH]; simpl; [now left|].
  destruct (is_space c) eqn:Sc; [exact IH|]. right. now exists c, s.
Qed.

Lemma strip_idem (s : string) : strip (strip s) = strip s.
Proof.
  unfold strip. destruct (lstrip_head s) as [-> | [c [r [-> Sc]]]]; [reflexivity|].
  rewrite (rstrip_keeps_head c r Sc). simpl lstrip. rewrite Sc.
  rewrite <- (rstrip_keeps_head c r Sc). apply rstrip_idem.
Qed.

Lemma is_ascii_lower (s : string) : is_ascii (lower s) = is_ascii s.
Proof. induction s as [| c s IH]; simpl; [reflexivity|]. now rewrite lower_char_ascii, IH. Qed.

Lemma is_ascii_lstrip (s : string) : is_ascii s = true -> is_ascii (lstrip s) = true.
Proof.
  induction s as [| c s IH]; simpl; [reflexivity|]. intros E.
  destruct (is_space c); [|exact E]. apply IH. now apply andb_true_iff in E.
Qed.

Lemma is_ascii_rstrip (s : string) : is_ascii s = true -> is_ascii (rstrip s) = true.
Proof.
  induction s as [| c s IH]; simpl; [reflexivity|]. intros E.
  apply andb_true_iff in E. destruct E as [Ec Es]. specialize (IH Es).
  destruct (rstrip s) as [| a r].
  - destruct (is_space c); simpl; [reflexivity | now rewrite Ec].
  - cbn [is_ascii] in *. now rewrite Ec.
Qed.

Lemma is_ascii_strip (s : string) : is_ascii s = true -> is_ascii (strip s) = true.
Proof. intros E. unfold strip. now apply is_ascii_rstrip, is_ascii_lstrip. Qed.

Section Normalize.
Context `{Pandas}.

(** On an ASCII label the normalisation is [strip] then [lower]. *)
Lemma normalize_ascii (c : string) :
  is_ascii c = true -> str_lower (str_strip c) = lower (strip c).
Proof.
  intros E. rewrite (str_strip_ascii c E).
  apply str_lower_ascii. now apply is_ascii_strip.
Qed.

Lemma columns_normalize (df : DataFrame) :
  columns (normalize_columns df) = map (fun c => str_lower (str_strip c)) (columns df).
Proof. unfold columns, normalize_columns. simpl. now rewrite !map_map. Qed.

Lemma normalize_columns_ascii (df : DataFrame) :
  forallb is_ascii (columns df) = true ->
  normalize_columns df
  = {| index := index df;
       cols := map (fun c => (lower (strip (fst c)), snd c)) (cols df) |}.
Proof.
  intros E. unfold normalize_columns. f_equal. apply map_ext_in.
  intros [c s] Hin. simpl. f_equal. apply normalize_ascii.
  rewrite forallb_forall in E. apply E. unfold columns.
  apply in_map_iff. now exists (c, s).
Qed.

Lemma rectangular_normalize (df : DataFrame) :
  rectangular (normalize_columns df) = rectangular df.
Proof.
  unfold rectangular, normalize_columns, len. simpl.
  induction (cols df) as [| x l IH]; simpl; [reflexivity|]. now rewrite IH.
Qed.

End Normalize.

(* ================================================================== *)
(** * Sorting by date *)

Lemma take_non_nan (v : list (option Z)) (l : list (nat * Z)) :
  Forall (fun p => nth_error v (fst p) = Some (Some (snd p))) l ->
  take (map fst l) v = map (fun p => Some (snd p)) l.
Proof.
  induction 1 as [| p l Hp _ IH]; simpl; [reflexivity|].
  rewrite Hp. simpl. f_equal. exact IH.
Qed.

Section Sorting.
Context `{Pandas}.

(** [nargsort] returns every position once. *)
Lemma nargsort_Permutation (v : list (option Z)) :
  Permutation (nargsort v) (seq 0 (List.length v)).
Proof.
  unfold nargsort. rewrite <- enumerate_fst, <- split_nan_Permutation.
  apply Permutation_app_tail, take_Permutation.
  rewrite length_map, <- (length_map snd). apply argsort_Permutation.
Qed.

(** Taken along [nargsort], the values are ascending, NaT last. *)
Lemma take_nargsort_ascending (v : list (option Z)) :
  ascending_na_last (take (nargsort v) v).
Proof.
  set (nn := non_nan_of (enumerate v)).
  exists (take (argsort (map snd nn)) (map snd nn)),
         (List.length (nan_of (enumerate v))).
  split; [|apply argsort_Sorted].
  unfold nargsort. fold nn. rewrite take_app. f_equal.
  - rewrite !take_map, take_non_nan, map_map; [reflexivity|].
    apply Forall_forall. intros p Hp. apply In_take in Hp.
    pose proof (non_nan_of_nth v) as F. rewrite Forall_forall in F. now apply F.
  - apply take_nan, nan_of_nth.
Qed.

(** Keys that increase strictly are left where they are. *)
Lemma argsort_increasing (ks : list Z) :
  StronglySorted Z.lt ks -> argsort ks = seq 0 (List.length ks).
Proof.
  intros S. apply (take_injective ks).
  - now apply StronglySorted_lt_NoDup.
  - apply Permutation_seq_bound, argsort_Permutation.
  - apply Forall_forall. intros i Hi. apply in_seq in Hi. lia.
  - rewrite take_seq_all. apply Sorted_Permutation_eq.
    + apply argsort_Sorted.
    + now apply StronglySorted_lt_le.
    + apply take_Permutation, argsort_Permutation.
Qed.

End Sorting.

(* ================================================================== *)
(** * The loaded, relabelled and sorted frame *)

Section Prepared.
Context `{Pandas}.

Lemma read_csv_rectangular (fs : FileSystem) (file_path : string) (df0 : DataFrame) :
  read_csv fs file_path = Ok df0 -> rectangular df0 = true.
Proof.
  unfold read_csv. destruct (fs file_path); [|discriminate].
  apply parse_csv_rectangular.
Qed.

Lemma report_loaded (fs : FileSystem) (file_path : string) (df0 df : DataFrame) :
  read_csv fs file_path = Ok df0 -> prepared df0 = Ok df ->
  report fs file_path = Ok (describe df (date_column df0)).
Proof.
  intros L P. unfold report. rewrite L. simpl.
  unfold prepared, date_column in P. now rewrite P.
Qed.

Lemma analyze_loaded (fs : FileSystem) (file_path : string) (df0 df : DataFrame) :
  read_csv fs file_path = Ok df0 -> prepared df0 = Ok df ->
  analyze_air_quality_csv fs file_path
  = Ok (join nl (map snd (describe df (date_column df0)))).
Proof.
  intros L P. unfold analyze_air_quality_csv.
  now rewrite (report_loaded _ _ _ _ L P).
Qed.

Lemma prepared_no_date (df0 : DataFrame) :
  date_column df0 = None -> prepared df0 = Ok (normalize_columns df0).
Proof. unfold prepared. now intros ->. Qed.

(** Distinct labels leave one column to the date label. *)
Lemma distinct_one_date (df0 : DataFrame) :
  distinct_labels df0 = true -> one_date_column df0 = true.
Proof.
  intros D. unfold one_date_column. destruct (date_column df0) as [c|] eqn:E; [|reflexivity].
  apply find_date_col_In in E.
  destruct (getitem_unique (normalize_columns df0) c) as [s Hs];
    [now apply nodupb_NoDup | tauto |].
  now rewrite Hs.
Qed.

Lemma date_column_unique (df0 : DataFrame) (c : string) :
  one_date_column df0 = true -> date_column df0 = Some c ->
  exists s, getitem (normalize_columns df0) c = [s].
Proof.
  unfold one_date_column. intros U E. rewrite E in U.
  destruct (getitem (normalize_columns df0) c) as [| s [| s' l]]; try discriminate.
  now exists s.
Qed.

(** The run fails on a date label carried by several columns. *)
Lemma prepared_two_dates (df0 : DataFrame) :
  one_date_column df0 = false -> prepared df0 = Raise "ValueError".
Proof.
  unfold one_date_column, prepared, parse_dates.
  destruct (date_column df0) as [c|]; [|discriminate].
  destruct (getitem (normalize_columns df0) c) as [| s [| s' l]]; try discriminate;
    reflexivity.
Qed.

Lemma parsed_dates_length (df0 : DataFrame) (c : string) :
  rectangular df0 = true -> one_date_column df0 = true -> date_column df0 = Some c ->
  List.length (parsed_dates df0 c) = len df0.
Proof.
  intros R D E. destruct (date_column_unique _ _ D E) as [s Hs].
  unfold parsed_dates. rewrite Hs, to_datetime_length.
  rewrite <- rectangular_normalize in R.
  rewrite (rectangular_getitem _ c s R); [reflexivity|].
  rewrite Hs. now left.
Qed.

Lemma date_values_dated (df0 : DataFrame) (c : string) :
  one_date_column df0 = true -> date_column df0 = Some c ->
  date_values (dated df0 c) c = parsed_dates df0 c.
Proof.
  intros D E. destruct (date_column_unique _ _ D E) as [s Hs].
  unfold date_values, dated. now rewrite getitem_setitem_same, Hs.
Qed.

Lemma prepared_date (df0 : DataFrame) (c : string) :
  one_date_column df0 = true -> date_column df0 = Some c ->
  prepared df0 = Ok (DataFrame_take (nargsort (parsed_dates df0 c)) (dated df0 c)).
Proof.
  intros D E. pose proof (date_values_dated _ _ D E) as DV.
  destruct (date_column_unique _ _ D E) as [s Hs].
  unfold prepared, parse_dates. rewrite E, Hs.
  unfold sort_values.
  assert (P : parsed_dates df0 c = to_datetime s) by (unfold parsed_dates; now rewrite Hs).
  unfold dated in *. rewrite P in *. now rewrite DV.
Qed.

Lemma sort_values_dated (df0 : DataFrame) (c : string) :
  one_date_column df0 = true -> date_column df0 = Some c ->
  sort_values (dated df0 c) c
  = DataFrame_take (nargsort (parsed_dates df0 c)) (dated df0 c).
Proof. intros D E. unfold sort_values. now rewrite date_values_dated. Qed.

Lemma date_values_take (idx : list nat) (df0 : DataFrame) (c : string) :
  one_date_column df0 = true -> date_column df0 = Some c ->
  date_values (DataFrame_take idx (dated df0 c)) c = take idx (parsed_dates df0 c).
Proof.
  intros D E. destruct (date_column_unique _ _ D E) as [s Hs].
  unfold date_values, DataFrame_take. rewrite getitem_apply.
  unfold dated. now rewrite getitem_setitem_same, Hs.
Qed.

Lemma nargsort_parsed_dates (df0 : DataFrame) (c : string) :
  rectangular df0 = true -> one_date_column df0 = true -> date_column df0 = Some c ->
  Permutation (nargsort (parsed_dates df0 c)) (seq 0 (len df0)).
Proof.
  intros R D E. rewrite <- (parsed_dates_length df0 c R D E). apply nargsort_Permutation.
Qed.

(** What loading leaves to describe: a frame with the relabelled columns and
    as many rows as were loaded; without a date column it is the relabelled
    frame itself, and with one its rows are taken along [nargsort] of the
    parsed dates. *)
Lemma prepared_ok (df0 : DataFrame) :
  rectangular df0 = true -> one_date_column df0 = true ->
  exists df,
    prepared df0 = Ok df
    /\ columns df = columns (normalize_columns df0)
    /\ len df = len df0
    /\ (date_column df0 = None -> df = normalize_columns df0)
    /\ (forall c, date_column df0 = Some c ->
          df = DataFrame_take (nargsort (parsed_dates df0 c)) (dated df0 c)
          /\ date_values df c = take (nargsort (parsed_dates df0 c)) (parsed_dates df0 c)).
Proof.
  intros R D. destruct (date_column df0) as [c|] eqn:E.
  - exists (DataFrame_take (nargsort (parsed_dates df0 c)) (dated df0 c)).
    split; [now apply prepared_date|].
    split; [unfold DataFrame_take, dated; now rewrite columns_apply, columns_setitem|].
    split.
    { rewrite len_take; [reflexivity|]. exact (nargsort_parsed_dates df0 c R D E). }
    split; [discriminate|].
    intros c' E'. inversion E'; subst c'.
    split; [reflexivity | now apply date_values_take].
  - exists (normalize_columns df0).
    split; [now apply prepared_no_date|].
    split; [reflexivity|]. split; [reflexivity|].
    split; [reflexivity | discriminate].
Qed.

Lemma rectangular_dated (df0 : DataFrame) (c : string) :
  rectangular df0 = true -> one_date_column df0 = true -> date_column df0 = Some c ->
  rectangular (dated df0 c) = true.
Proof.
  intros R D E. pose proof (parsed_dates_length df0 c R D E) as PL.
  rewrite <- rectangular_normalize in R.
  unfold rectangular, dated, setitem, len in *. simpl in *.
  rewrite forallb_forall in *. intros x Hx.
  apply in_map_iff in Hx. destruct Hx as [y [<- Hy]].
  destruct (String.eqb (fst y) c); simpl.
  - rewrite PL. apply Nat.eqb_refl.
  - now apply R.
Qed.


(** The described frame holds the pollutant columns of the loaded one, their
    rows taken along one permutation of the positions. *)
Lemma prepared_pollutant_columns (df0 df : DataFrame) :
  rectangular df0 = true -> one_date_column df0 = true -> prepared df0 = Ok df ->
  exists idx,
    Permutation idx (seq 0 (len df0))
    /\ forall p, In p VOCABULARY ->
         getitem df p
         = map (Series_apply (fun A => @take idx A)) (getitem (normalize_columns df0) p).
Proof.
  intros R D P.
  destruct (prepared_ok df0 R D) as [df' [P' [_ [_ [Hn Hd]]]]].
  rewrite P in P'. inversion P'; subst df'; clear P'.
  destruct (date_column df0) as [c|] eqn:E.
  - destruct (Hd c eq_refl) as [-> _].
    exists (nargsort (parsed_dates df0 c)). split.
    + now apply nargsort_parsed_dates.
    + intros p Hp. unfold DataFrame_take. rewrite getitem_apply. f_equal.
      unfold dated. apply getitem_setitem_other.
      rewrite String.eqb_sym. apply vocabulary_not_date; [exact Hp|].
      now apply (find_date_col_In _ _ E).
  - rewrite (Hn eq_refl). exists (seq 0 (len df0)). split; [reflexivity|].
    intros p Hp. rewrite <- (map_id (getitem _ p)) at 1.
    apply map_ext_in. intros s Hs.
    rewrite <- rectangular_normalize in R.
    assert (L : Series_len s = len df0)
      by exact (rectangular_getitem (normalize_columns df0) p s R Hs).
    rewrite <- L. symmetry. apply Series_take_seq.
Qed.

End Prepared.

(* ================================================================== *)
(** * The lines of the report, by kind *)

Section Lines.
Context `{Pandas}.

Lemma describe_eq (df : DataFrame) (dc : option string) :
  describe df dc
  = ((Rows, rows_line (len df)) :: date_range_lines df dc ++ report_body df dc)%list.
Proof.
  unfold describe, report_body, rows_line.
  destruct (find_pollutants df); simpl; [reflexivity|].
  now rewrite <- app_assoc.
Qed.

Lemma in_date_range_lines (df : DataFrame) (dc : option string) (k : line_kind) (l : string) :
  In (k, l) (date_range_lines df dc) <->
  k = DateRange /\ exists c, dc = Some c /\ notna_any (date_values df c) = true
                             /\ l = date_range_line (date_values df c).
Proof.
  unfold date_range_lines. destruct dc as [c|].
  - destruct (notna_any (date_values df c)) eqn:E; simpl.
    + split.
      * intros [E' | []]. inversion E'; subst. split; [reflexivity|]. now exists c.
      * intros [-> [c' [Ec [_ ->]]]]. inversion Ec; subst. now left.
    + split; [contradiction|]. intros [_ [c' [Ec [En _]]]].
      inversion Ec; subst. congruence.
  - simpl. split; [contradiction|]. intros [_ [c' [Ec _]]]. discriminate.
Qed.

Lemma in_trend_lines (df : DataFrame) (dc : option string) (k : line_kind) (l : string) :
  In (k, l) (trend_lines df dc (find_pollutants df)) <->
  k = Trends /\ has_dates df dc = true /\ (8 <= len df)%nat /\ quartile_msgs df <> []
  /\ l = trends_line (quartile_msgs df).
Proof.
  unfold trend_lines, quartile_msgs, trends_line.
  destruct (has_dates df dc); cbn [andb].
  - destruct (Nat.leb_spec 8 (len df)) as [Hle | Hlt].
    + destruct (trend_msgs _ _ _) as [| m ms]; cbn [In].
      * split; [contradiction|]. intros [_ [_ [_ [Hne _]]]]. exfalso; now apply Hne.
      * split.
        -- intros [E | []]. inversion E; subst. repeat split; [exact Hle | discriminate].
        -- intros [-> [_ [_ [_ ->]]]]. now left.
    + split; [contradiction|]. intros [_ [_ [Hle _]]]. lia.
  - split; [contradiction|]. intros [_ [Hf _]]. discriminate.
Qed.

Lemma in_report_body (df : DataFrame) (dc : option string) (k : line_kind) (l : string) :
  In (k, l) (report_body df dc) <->
  (find_pollutants df = []
   /\ ((k = Notice /\ l = NOTICE)
       \/ (k = Preview /\ l = to_string false (DataFrame_head 5 df))))
  \/ (find_pollutants df <> []
      /\ ((k = Means /\ l = means_line df (find_pollutants df))
          \/ In (k, l) (trend_lines df dc (find_pollutants df)))).
Proof.
  unfold report_body. destruct (find_pollutants df) as [| p ps] eqn:EP.
  - simpl. split.
    + intros [E | [E | []]]; inversion E; subst; left; split; auto.
    + intros [[_ [[-> ->] | [-> ->]]] | [Hne _]]; auto.
  - cbn [In]. split.
    + intros [E | Hin]; right; (split; [discriminate|]).
      * inversion E; subst. now left.
      * now right.
    + intros [[E _] | [_ [[-> ->] | Hin]]]; [discriminate | now left | now right].
Qed.

Lemma in_describe (df : DataFrame) (dc : option string) (k : line_kind) (l : string) :
  In (k, l) (describe df dc) <->
  (k = Rows /\ l = rows_line (len df))
  \/ In (k, l) (date_range_lines df dc)
  \/ In (k, l) (report_body df dc).
Proof.
  rewrite describe_eq. simpl. rewrite in_app_iff. split.
  - intros [E | Hin]; [inversion E; subst; now left | now right].
  - intros [[-> ->] | Hin]; [now left | now right].
Qed.

Lemma describe_date_range (df : DataFrame) (dc : option string) (l : string) :
  In (DateRange, l) (describe df dc) <->
  exists c, dc = Some c /\ notna_any (date_values df c) = true
            /\ l = date_range_line (date_values df c).
Proof.
  rewrite in_describe, in_date_range_lines, in_report_body, in_trend_lines.
  intuition (try discriminate).
Qed.

Lemma describe_means (df : DataFrame) (dc : option string) (l : string) :
  In (Means, l) (describe df dc) <->
  find_pollutants df <> [] /\ l = means_line df (find_pollutants df).
Proof.
  rewrite in_describe, in_date_range_lines, in_report_body, in_trend_lines.
  intuition (try discriminate).
Qed.

Lemma describe_trends (df : DataFrame) (dc : option string) (l : string) :
  In (Trends, l) (describe df dc) <->
  has_dates df dc = true /\ (8 <= len df)%nat /\ quartile_msgs df <> []
  /\ l = trends_line (quartile_msgs df).
Proof.
  rewrite in_describe, in_date_range_lines, in_report_body, in_trend_lines.
  split.
  - intuition (try discriminate).
  - intros [Hd [Hn [Hq ->]]]. right. right. right. split.
    + intros E. unfold quartile_msgs in Hq. rewrite E in Hq. now apply Hq.
    + right. auto.
Qed.

Lemma prefix_app (a b : string) : prefix a (a ++ b) = true.
Proof.
  induction a as [| c a IH]; simpl; [now destruct b|].
  destruct (ascii_dec c c); [exact IH | congruence].
Qed.

(** The kind of a line shows in its text. *)
Lemma describe_prefix (df : DataFrame) (dc : option string) (k : line_kind) (l : string) :
  In (k, l) (describe df dc) ->
  match k with
  | Rows => prefix "Rows: " l = true
  | DateRange => prefix "Date range: " l = true
  | Means => prefix "Means: " l = true
  | Trends => prefix "Simple trends: " l = true
  | Notice => l = NOTICE
  | Preview => l = to_string false (DataFrame_head 5 df)
  end.
Proof.
  rewrite in_describe, in_date_range_lines, in_report_body, in_trend_lines.
  intros [[-> ->] | [[-> [c [_ [_ ->]]]] | [[_ [[-> ->] | [-> ->]]]
                                           | [_ [[-> ->] | [-> [_ [_ [_ ->]]]]]]]]];
    try reflexivity; apply prefix_app.
Qed.

Lemma describe_fallback (df : DataFrame) (dc : option string) :
  find_pollutants df = [] ->
  describe df dc
  = (((Rows, rows_line (len df)) :: date_range_lines df dc)
       ++ [(Notice, NOTICE); (Preview, to_string false (DataFrame_head 5 df))])%list.
Proof. unfold describe, rows_line. now intros ->. Qed.

Lemma describe_no_fallback (df : DataFrame) (dc : option string) (k : line_kind) (l : string) :
  find_pollutants df <> [] -> In (k, l) (describe df dc) ->
  k <> Notice /\ k <> Preview.
Proof.
  rewrite in_describe, in_date_range_lines, in_report_body, in_trend_lines.
  intuition congruence.
Qed.

Lemma no_rows_after_first (df : DataFrame) (dc : option string) (l : string) :
  ~ In (Rows, l) (date_range_lines df dc ++ report_body df dc).
Proof.
  rewrite in_app_iff, in_date_range_lines, in_report_body, in_trend_lines.
  intuition discriminate.
Qed.

Lemma trend_lines_kinds (df : DataFrame) (dc : option string) :
  trend_lines df dc (find_pollutants df) = []
  \/ (has_dates df dc = true
      /\ map fst (trend_lines df dc (find_pollutants df)) = [Trends]).
Proof.
  unfold trend_lines. destruct (has_dates df dc); cbn [andb]; [|now left].
  destruct (8 <=? len df)%nat; [|now left].
  destruct (trend_msgs _ _ _); [now left | right; split; reflexivity].
Qed.

Lemma date_range_lines_kinds (df : DataFrame) (dc : option string) :
  (has_dates df dc = false /\ date_range_lines df dc = [])
  \/ (has_dates df dc = true /\ map fst (date_range_lines df dc) = [DateRange]).
Proof.
  unfold date_range_lines, has_dates. destruct dc as [c|]; [|now left].
  destruct (notna_any (date_values df c)); [now right | now left].
Qed.

Lemma describe_shapes (df : DataFrame) (dc : option string) :
  In (map fst (describe df dc)) REPORT_SHAPES.
Proof.
  rewrite describe_eq. cbn [map fst]. rewrite map_app.
  unfold report_body, REPORT_SHAPES.
  destruct (date_range_lines_kinds df dc) as [[Hd ->] | [Hd ->]].
  - destruct (find_pollutants df) as [| p ps] eqn:EP; simpl; [now left|].
    rewrite <- EP.
    destruct (trend_lines_kinds df dc) as [-> | [Ht _]]; [|congruence].
    simpl. right. right. now left.
  - destruct (find_pollutants df) as [| p ps] eqn:EP; simpl; [right; now left|].
    rewrite <- EP.
    destruct (trend_lines_kinds df dc) as [-> | [_ ->]]; simpl.
    + do 3 right. now left.
    + do 4 right. now left.
Qed.

End Lines.

(* ================================================================== *)
(** * The script against the specification *)


Lemma contribution_cells (s : Series) :
  is_numeric s = true -> map contribution (cells s) = fill_zero (float_values s).
Proof.
  destruct s as [v|v|v|v|v|v]; simpl; intros N; try discriminate N.
  - rewrite (fill_zero_cast (fun z : Z => z)), map_map. reflexivity.
  - unfold fill_zero. rewrite map_map. apply map_ext. intros x.
    now destruct (isna x).
  - rewrite (fill_zero_cast Z.b2z), map_map. reflexivity.
Qed.

Lemma holds_number_cells (s : Series) :
  is_numeric s = true ->
  List.length (filter holds_number (cells s)) = count_notna (float_values s).
Proof.
  destruct s as [v|v|v|v|v|v]; simpl; intros N; try discriminate N.
  - rewrite (count_notna_cast (fun z : Z => z)).
    induction v as [| z v IH]; simpl; [reflexivity|]. now rewrite IH.
  - unfold count_notna. induction v as [| x v IH]; simpl; [reflexivity|].
    destruct (isna x); simpl; now rewrite IH.
  - rewrite (count_notna_cast Z.b2z).
    induction v as [| z v IH]; simpl; [reflexivity|]. now rewrite IH.
Qed.

Lemma numeric_holds_no_text (s : Series) (t : string) :
  is_numeric s = true -> ~ In (Text t) (cells s).
Proof.
  destruct s as [v|v|v|v|v|v]; simpl; intros N Hin; try discriminate N;
    apply in_map_iff in Hin; destruct Hin as [x [E _]]; try discriminate.
  destruct (isna x); discriminate.
Qed.

Section Refinement.
Context `{Pandas}.

(** [mean] on a numeric column is the mean of the specification. *)
Lemma nanmean_skip_missing (s : Series) :
  is_numeric s = true -> nanmean (float_values s) = skip_missing_mean s.
Proof.
  intros N. unfold nanmean, skip_missing_mean.
  now rewrite (holds_number_cells s N), (contribution_cells s N).
Qed.

(** A column without a number in any row has no mean. *)
Lemma skip_missing_mean_none (s : Series) :
  filter holds_number (cells s) = [] -> skip_missing_mean s = PrimFloat.nan.
Proof. intros E. unfold skip_missing_mean. now rewrite E. Qed.

(** The mean of integers that are exactly summable: the exact sum over the
    count, rounded once by the division. *)
Lemma nanmean_exact (zs : list Z) :
  zs <> [] -> exactly_summable zs = true ->
  nanmean (map Z_to_float zs)
  = PrimFloat.div (Z_to_float (Zsum zs)) (Z_to_float (Z.of_nat (List.length zs))).
Proof.
  intros NE E. unfold nanmean.
  rewrite (count_notna_cast (fun z : Z => z) zs : count_notna (map Z_to_float zs) = _).
  rewrite (fill_zero_cast (fun z : Z => z) zs : fill_zero (map Z_to_float zs) = map Z_to_float zs).
  rewrite (fsum_exact zs E).
  destruct zs; [contradiction | reflexivity].
Qed.





Lemma trend_msgs_acc (head tail : DataFrame) (ps : list string) (acc : list string) :
  fold_left (trend_step head tail) ps acc
  = (acc ++ fold_left (trend_step head tail) ps [])%list.
Proof.
  revert acc. induction ps as [| p ps IH]; intros acc; simpl.
  - now rewrite app_nil_r.
  - rewrite IH. rewrite (IH (trend_step head tail [] p)).
    unfold trend_step. destruct (trend_of head tail p) as [[m|]|]; simpl;
      now rewrite ?app_nil_r, <- ?app_assoc.
Qed.

Lemma trend_msgs_cons (head tail : DataFrame) (p : string) (ps : list string) :
  trend_msgs head tail (p :: ps)
  = (trend_step head tail [] p ++ trend_msgs head tail ps)%list.
Proof.
  unfold trend_msgs. fold (trend_step head tail). simpl.
  now rewrite trend_msgs_acc.
Qed.

Lemma trend_msgs_app (head tail : DataFrame) (ps1 ps2 : list string) :
  trend_msgs head tail (ps1 ++ ps2)
  = (trend_msgs head tail ps1 ++ trend_msgs head tail ps2)%list.
Proof.
  induction ps1 as [| p ps1 IH]; [reflexivity|].
  simpl app. now rewrite !trend_msgs_cons, IH, app_assoc.
Qed.


End Refinement.

(* ================================================================== *)
(** * The means *)

Lemma dict_set_fresh {V : Type} (d : list (string * V)) (k : string) (v : V) :
  ~ In k (map fst d) -> dict_set d k v = (d ++ [(k, v)])%list.
Proof.
  induction d as [| [k' v'] d IH]; simpl; intros Hni; [reflexivity|].
  destruct (String.eqb k' k) eqn:E.
  - apply String.eqb_eq in E. exfalso. apply Hni. now left.
  - rewrite IH; [reflexivity|]. intros Hin. apply Hni. now right.
Qed.

Lemma to_dict_acc {V : Type} (l acc : list (string * V)) :
  NoDup (map fst (acc ++ l)) ->
  fold_left (fun d kv => dict_set d (fst kv) (snd kv)) l acc = (acc ++ l)%list.
Proof.
  revert acc. induction l as [| [k v] l IH]; intros acc ND; simpl.
  - now rewrite app_nil_r.
  - rewrite dict_set_fresh.
    + rewrite IH; rewrite <- app_assoc; [reflexivity | exact ND].
    + rewrite map_app in ND. simpl in ND. apply NoDup_remove_2 in ND.
      intros Hin. apply ND. apply in_or_app. now left.
Qed.

(** Entries with distinct labels go into the dict as they come. *)
Lemma to_dict_distinct {V : Type} (l : list (string * V)) :
  NoDup (map fst l) -> to_dict l = l.
Proof. intros ND. unfold to_dict. now rewrite to_dict_acc. Qed.

Lemma getitem_cases (df : DataFrame) (c : string) :
  NoDup (columns df) ->
  (exists s, filter (fun x => String.eqb (fst x) c) (cols df) = [(c, s)]
             /\ getitem df c = [s])
  \/ (filter (fun x => String.eqb (fst x) c) (cols df) = [] /\ getitem df c = []).
Proof.
  intros ND. destruct (in_dec string_dec c (columns df)) as [Hin | Hni].
  - left. destruct (filter_label_unique _ _ ND Hin) as [s E].
    exists s. split; [exact E|]. unfold getitem. now rewrite E.
  - right. pose proof (filter_label_absent _ _ Hni) as E.
    split; [exact E|]. unfold getitem. now rewrite E.
Qed.

Section MeansLine.
Context `{Pandas}.

Lemma mean_numeric_only_app (a b : list (string * Series)) :
  mean_numeric_only (a ++ b) = (mean_numeric_only a ++ mean_numeric_only b)%list.
Proof. unfold mean_numeric_only. now rewrite filter_app, map_app. Qed.

Lemma mean_numeric_only_select (df : DataFrame) (ps : list string) :
  NoDup (columns df) ->
  mean_numeric_only (select df ps)
  = map (fun p => (p, spec_column_mean df p)) (filter (reads_as_numbers df) ps).
Proof.
  intros ND. induction ps as [| p ps IH]; [reflexivity|].
  unfold select in *. simpl. rewrite mean_numeric_only_app, IH.
  destruct (getitem_cases df p ND) as [[s [Ef Eg]] | [Ef Eg]]; rewrite Ef.
  - assert (R : reads_as_numbers df p = is_numeric s)
      by (unfold reads_as_numbers; now rewrite Eg).
    rewrite R. unfold mean_numeric_only. simpl.
    destruct (is_numeric s) eqn:N; [|reflexivity].
    simpl. unfold spec_column_mean. rewrite Eg, N.
    now rewrite nanmean_skip_missing.
  - assert (R : reads_as_numbers df p = false)
      by (unfold reads_as_numbers; now rewrite Eg).
    now rewrite R.
Qed.

Lemma reads_as_numbers_present (df : DataFrame) (c : string) :
  reads_as_numbers df c = true -> mem c (columns df) = true.
Proof.
  unfold reads_as_numbers, getitem. intros R. apply mem_In.
  destruct (filter _ (cols df)) as [| [c' s] l] eqn:E; [discriminate|].
  assert (Hin : In (c', s) (filter (fun x => String.eqb (fst x) c) (cols df)))
    by (rewrite E; now left).
  apply filter_In in Hin. destruct Hin as [Hin Hc]. simpl in Hc.
  apply String.eqb_eq in Hc. subst c'.
  unfold columns. apply in_map_iff. now exists (c, s).
Qed.

(** The line of lines 45-47 on a frame with distinct labels. *)
Lemma means_line_spec (df : DataFrame) :
  NoDup (columns df) -> means_line df (find_pollutants df) = spec_means_line df.
Proof.
  intros ND. unfold means_line, spec_means_line.
  rewrite mean_numeric_only_select by exact ND.
  unfold find_pollutants.
  rewrite filter_filter_implied by apply reads_as_numbers_present.
  rewrite to_dict_distinct.
  - now rewrite map_map.
  - rewrite map_map. rewrite (map_ext _ (fun x => x)) by reflexivity.
    rewrite map_id. apply NoDup_filter, NoDup_VOCABULARY.
Qed.

(** Without a numeric column among the selected ones the line is bare. *)
Lemma means_line_bare (df : DataFrame) (ps : list string) :
  (forall p s, In p ps -> In s (getitem df p) -> is_numeric s = false) ->
  means_line df ps = "Means: ".
Proof.
  intros NN. unfold means_line, mean_numeric_only.
  rewrite (filter_none _ (select df ps)); [reflexivity|].
  intros [c s] Hin. unfold select in Hin. apply in_flat_map in Hin.
  destruct Hin as [p [Hp Hin]]. apply filter_In in Hin. destruct Hin as [Hin Ec].
  simpl in Ec. apply String.eqb_eq in Ec. subst c. simpl.
  apply (NN p s Hp). now apply getitem_In_cols.
Qed.

Lemma prepared_reads_as_numbers (df0 df : DataFrame) (p : string) :
  rectangular df0 = true -> one_date_column df0 = true -> prepared df0 = Ok df ->
  In p VOCABULARY ->
  reads_as_numbers df p = reads_as_numbers (normalize_columns df0) p.
Proof.
  intros R D P Hp.
  destruct (prepared_pollutant_columns _ _ R D P) as [idx [_ G]].
  unfold reads_as_numbers. rewrite (G p Hp).
  destruct (getitem (normalize_columns df0) p) as [| s [| ? ?]]; simpl; try reflexivity.
  apply is_numeric_apply.
Qed.

End MeansLine.

(* ================================================================== *)
(** * Dates: presence, bounds, rendering *)

Lemma somes_In {A : Type} (x : A) (v : list (option A)) : In x (somes v) <-> In (Some x) v.
Proof.
  unfold somes. rewrite in_flat_map. split.
  - intros [[y|] [Hin Hx]]; simpl in Hx; [|contradiction].
    destruct Hx as [-> | []]. exact Hin.
  - intros Hin. exists (Some x). split; [exact Hin | now left].
Qed.

Lemma notna_any_In (v : list (option Z)) :
  notna_any v = true <-> exists t, In (Some t) v.
Proof.
  unfold notna_any. rewrite existsb_exists. split.
  - intros [[t|] [Hin E]]; [now exists t | discriminate].
  - intros [t Hin]. now exists (Some t).
Qed.





(** With a date that is not missing, both bounds exist. *)
Lemma bounds_exist (v : list (option Z)) :
  notna_any v = true -> exists lo hi, Series_min v = Some lo /\ Series_max v = Some hi.
Proof.
  intros N. apply notna_any_In in N. destruct N as [t Ht].
  apply somes_In in Ht. unfold Series_min, Series_max.
  destruct (somes v) as [| x xs]; [contradiction|]. eauto.
Qed.





Lemma occurs_app (c : ascii) (a b : string) :
  occurs c (a ++ b) = occurs c a || occurs c b.
Proof.
  induction a as [| x a IH]; simpl; [reflexivity|]. now rewrite IH, orb_assoc.
Qed.

Lemma uint_no_slash (d : Decimal.uint) : occurs "/" (NilEmpty.string_of_uint d) = false.
Proof. induction d; simpl; auto. Qed.

Lemma Z_str_no_slash (z : Z) : occurs "/" (Z_str z) = false.
Proof.
  unfold Z_str, NilZero.string_of_int, NilZero.string_of_uint.
  destruct (Z.to_int z) as [d | d]; destruct d; simpl; auto using uint_no_slash.
Qed.

Lemma zeros_no_slash (n : nat) : occurs "/" (zeros n) = false.
Proof. induction n; simpl; auto. Qed.

Lemma zpad_no_slash (w : nat) (z : Z) : occurs "/" (zpad w z) = false.
Proof. unfold zpad. now rewrite occurs_app, zeros_no_slash, Z_str_no_slash. Qed.

Lemma date_str_no_slash (t : Z) : occurs "/" (date_str t) = false.
Proof.
  unfold date_str. destruct (civil_from_days (day_of t)) as [[y m] d].
  rewrite !occurs_app, !zpad_no_slash. reflexivity.
Qed.



(** A line between present bounds holds no ["N/A"]. *)
Lemma date_range_line_no_NA (lo hi : Z) (a b : string) :
  "Date range: " ++ date_str lo ++ " → " ++ date_str hi <> a ++ "N/A" ++ b.
Proof.
  intros E.
  assert (S : occurs "/" ("Date range: " ++ date_str lo ++ " → " ++ date_str hi) = false).
  { rewrite !occurs_app, !date_str_no_slash. reflexivity. }
  rewrite E, !occurs_app in S. simpl in S.
  rewrite orb_true_r in S. discriminate.
Qed.






(** ** The dict of the means *)

Section Dict.
Context {V : Type}.

Lemma dict_get_set (d : list (string * V)) (k k' : string) (v : V) :
  dict_get (dict_set d k v) k' = if String.eqb k k' then Some v else dict_get d k'.
Proof.
  unfold dict_get. induction d as [| [a b] d IH]; simpl.
  - now destruct (String.eqb k k').
  - destruct (String.eqb a k) eqn:E; simpl.
    + apply String.eqb_eq in E. subst a. now destruct (String.eqb k k').
    + destruct (String.eqb a k') eqn:E'; simpl; [|exact IH].
      apply String.eqb_eq in E'. subst a. now rewrite String.eqb_sym, E.
Qed.

Lemma dict_set_keys (d : list (string * V)) (k : string) (v : V) :
  map fst (dict_set d k v)
  = if mem k (map fst d) then map fst d else (map fst d ++ [k])%list.
Proof.
  induction d as [| [a b] d IH]; simpl; [reflexivity|].
  rewrite (String.eqb_sym k a). destruct (String.eqb a k) eqn:E; simpl.
  - apply String.eqb_eq in E. now subst a.
  - rewrite IH. now destruct (mem k (map fst d)).
Qed.

Lemma dict_set_NoDup (d : list (string * V)) (k : string) (v : V) :
  NoDup (map fst d) -> NoDup (map fst (dict_set d k v)).
Proof.
  intros ND. rewrite dict_set_keys. destruct (mem k (map fst d)) eqn:M; [exact ND|].
  apply mem_false in M. apply NoDup_app; [exact ND | repeat constructor; auto |].
  intros x Hx [<- | []]. contradiction.
Qed.

Lemma find_app {A : Type} (p : A -> bool) (a b : list A) :
  find p (a ++ b) = match find p a with Some x => Some x | None => find p b end.
Proof. induction a as [| x a IH]; simpl; [reflexivity|]. now destruct (p x). Qed.

Lemma to_dict_get_acc (l acc : list (string * V)) (k : string) :
  dict_get (fold_left (fun d kv => dict_set d (fst kv) (snd kv)) l acc) k
  = match find (fun kv => String.eqb (fst kv) k) (rev l) with
    | Some kv => Some (snd kv)
    | None => dict_get acc k
    end.
Proof.
  revert acc. induction l as [| [a b] l IH]; intros acc; simpl; [reflexivity|].
  rewrite IH, find_app. destruct (find _ (rev l)); [reflexivity|].
  simpl. rewrite dict_get_set. now destruct (String.eqb a k).
Qed.

(** A key of the dict has the value of its last entry. *)
Lemma to_dict_get (l : list (string * V)) (k : string) :
  dict_get (to_dict l) k = dict_get (rev l) k.
Proof.
  unfold to_dict. rewrite to_dict_get_acc. unfold dict_get.
  now destruct (find _ (rev l)).
Qed.

Lemma to_dict_NoDup (l : list (string * V)) : NoDup (map fst (to_dict l)).
Proof.
  unfold to_dict.
  assert (G : forall acc, NoDup (map fst acc) ->
              NoDup (map fst (fold_left (fun d kv => dict_set d (fst kv) (snd kv)) l acc))).
  { induction l as [| x l IH]; intros acc ND; simpl; [exact ND|].
    apply IH. now apply dict_set_NoDup. }
  apply G. constructor.
Qed.

End Dict.

Lemma find_hd_filter {A : Type} (p : A -> bool) (l : list A) :
  find p l = hd_error (filter p l).
Proof. induction l as [| x l IH]; simpl; [reflexivity|]. now destruct (p x). Qed.

Lemma filter_rev {A : Type} (p : A -> bool) (l : list A) :
  filter p (rev l) = rev (filter p l).
Proof.
  induction l as [| x l IH]; simpl; [reflexivity|].
  rewrite filter_app, IH. simpl. destruct (p x); simpl; [reflexivity|].
  now rewrite app_nil_r.
Qed.

Lemma filter_flat_map {A B : Type} (p : B -> bool) (f : A -> list B) (l : list A) :
  filter p (flat_map f l) = flat_map (fun x => filter p (f x)) l.
Proof.
  induction l as [| x l IH]; simpl; [reflexivity|]. now rewrite filter_app, IH.
Qed.

Lemma filter_filter_and {A : Type} (p q : A -> bool) (l : list A) :
  filter p (filter q l) = filter (fun x => q x && p x) l.
Proof.
  induction l as [| x l IH]; simpl; [reflexivity|].
  destruct (q x); simpl; [destruct (p x)|]; now rewrite IH.
Qed.

(** The numeric columns labelled [k] among the selected ones are those of
    the frame, when [k] is selected once. *)
Lemma select_label (df : DataFrame) (ps : list string) (k : string) :
  NoDup ps ->
  filter (fun c => String.eqb (fst c) k && is_numeric (snd c)) (select df ps)
  = if mem k ps
    then filter (fun c => String.eqb (fst c) k && is_numeric (snd c)) (cols df)
    else [].
Proof.
  unfold select. rewrite filter_flat_map.
  induction ps as [| p ps IH]; intros ND; [reflexivity|].
  inversion ND as [| ? ? Hni ND']; subst. simpl.
  rewrite (IH ND'), filter_filter_and, (String.eqb_sym k p).
  destruct (String.eqb p k) eqn:E.
  - apply String.eqb_eq in E. subst p. simpl.
    apply mem_false in Hni. rewrite Hni, app_nil_r.
    apply filter_ext_in. intros c _.
    destruct (String.eqb (fst c) k); reflexivity.
  - simpl. rewrite (filter_none _ (cols df)); [reflexivity|].
    intros c _. destruct (String.eqb (fst c) p) eqn:E1; [|reflexivity].
    apply String.eqb_eq in E1. rewrite E1, E. reflexivity.
Qed.

(** ** Two decimals *)

Lemma round_half_even_close (x : Q) :
  (0 <= x)%Q ->
  0 <= round_half_even x
  /\ (Qabs (inject_Z (round_half_even x) - x) <= 1 # 2)%Q.
Proof.
  intros Px. unfold round_half_even.
  pose proof (Qred_correct x) as E.
  assert (Pr : (0 <= Qred x)%Q) by (now rewrite E).
  destruct (Qred x) as [n d]. simpl Qnum. simpl Qden.
  assert (Pn : 0 <= n) by (unfold Qle in Pr; simpl in Pr; lia).
  pose proof (Z.div_mod n (Zpos d) ltac:(lia)) as DM.
  pose proof (Z.mod_pos_bound n (Zpos d) ltac:(lia)) as MB.
  assert (Pf : 0 <= n / Zpos d) by (apply Z.div_pos; lia).
  set (f := n / Zpos d) in *. set (r := n mod Zpos d) in *.
  assert (C : forall c : Z, 2 * Z.abs (c * Zpos d - n) <= Zpos d ->
              (Qabs (inject_Z c - x) <= 1 # 2)%Q).
  { intros c Hc. rewrite <- E. apply Qabs_Qle_condition.
    unfold Qle, Qminus, Qplus, Qopp, inject_Z. simpl. split; lia. }
  destruct (2 * r <? Zpos d) eqn:A; [apply Z.ltb_lt in A | apply Z.ltb_ge in A].
  - split; [exact Pf | apply C; lia].
  - destruct (Zpos d <? 2 * r) eqn:B; [apply Z.ltb_lt in B | apply Z.ltb_ge in B].
    + split; [lia | apply C; lia].
    + destruct (Z.even f); (split; [lia | apply C; lia]).
Qed.

Lemma zpad2_length (z : Z) : 0 <= z < 100 -> String.length (zpad 2 z) = 2%nat.
Proof.
  intros B.
  assert (F : forallb (fun n => Nat.eqb (String.length (zpad 2 (Z.of_nat n))) 2)
                      (seq 0 100) = true) by (vm_compute; reflexivity).
  rewrite forallb_forall in F.
  specialize (F (Z.to_nat z)). rewrite Z2Nat.id in F by lia.
  apply Nat.eqb_eq, F, in_seq. lia.
Qed.

(* ================================================================== *)
(** * Properties of the report *)

Lemma to_dict_not_empty {V : Type} (l : list (string * V)) : l <> [] -> to_dict l <> [].
Proof.
  unfold to_dict.
  assert (S : forall (d : list (string * V)) k v, dict_set d k v <> []).
  { intros d k v. destruct d as [| [k' v'] d]; simpl; [discriminate|].
    destruct (String.eqb k' k); discriminate. }
  assert (G : forall (l : list (string * V)) acc, acc <> [] ->
              fold_left (fun d kv => dict_set d (fst kv) (snd kv)) l acc <> []).
  { induction l0 as [| x l0 IH]; intros acc NE; simpl; [exact NE|]. apply IH, S. }
  destruct l as [| x l]; [contradiction|]. intros _. simpl. apply G. discriminate.
Qed.

Lemma join_not_empty (sep e : string) (es : list string) :
  e <> "" -> join sep (e :: es) <> "".
Proof.
  intros NE. unfold join. simpl. destruct es as [| e' es]; [exact NE|].
  destruct e; [contradiction | discriminate].
Qed.

Lemma filter_take_empty {A : Type} (f : A -> bool) (idx : list nat) (l : list A) :
  Permutation idx (seq 0 (List.length l)) ->
  filter f l = [] -> filter f (take idx l) = [].
Proof.
  intros P E. apply filter_none. intros x Hx.
  apply In_take in Hx. destruct (f x) eqn:Fx; [|reflexivity].
  assert (I : In x (filter f l)) by (apply filter_In; auto).
  rewrite E in I. contradiction.
Qed.

Lemma row_head (n k : nat) (df : DataFrame) :
  (k < n)%nat -> row (DataFrame_head n df) k = row df k.
Proof.
  intros Hk. unfold row, DataFrame_head, DataFrame_apply. cbn [cols].
  rewrite map_map. apply map_ext. intros x. cbn [snd].
  rewrite cells_firstn, nth_error_firstn.
  apply Nat.ltb_lt in Hk. now rewrite Hk.
Qed.

Section Report.
Context `{Pandas}.

(** The rows of the sorted frame are rows of the frame as loaded, taken
    along a permutation of the positions. *)
Lemma sorted_rows (df0 : DataFrame) (c : string) (idx : list nat) :
  rectangular df0 = true -> one_date_column df0 = true -> date_column df0 = Some c ->
  Permutation idx (seq 0 (len df0)) ->
  forall k j, nth_error idx k = Some j ->
    nth_error (index (DataFrame_take idx (dated df0 c))) k = nth_error (index df0) j
    /\ row (DataFrame_take idx (dated df0 c)) k = row (dated df0 c) j.
Proof.
  intros R U E Pi k j Ek.
  pose proof (rectangular_dated _ _ R U E) as RD.
  pose proof (Permutation_seq_bound _ _ Pi) as B. split.
  - unfold DataFrame_take, DataFrame_apply, dated. cbn [index setitem normalize_columns].
    now apply nth_error_take.
  - unfold row, DataFrame_take, DataFrame_apply. cbn [cols].
    rewrite map_map. apply map_ext_in. intros x Hx. cbn [snd].
    rewrite cells_take. apply nth_error_take; [|exact Ek].
    rewrite cells_length.
    unfold rectangular in RD. rewrite forallb_forall in RD.
    specialize (RD x Hx). apply Nat.eqb_eq in RD. rewrite RD. exact B.
Qed.

(** C7. For a dataset (a loaded frame with distinct labels) with a recognised
    date column, the count printed in the "Rows:" line is the number of rows
    at load time: the frame sorted by the date column holds the loaded rows,
    each once, so it has as many rows, and the line that opens the report
    prints that count. *)
Theorem rows_count_is_load_count
    (fs : FileSystem) (file_path : string) (df0 : DataFrame) (c : string) :
  read_csv fs file_path = Ok df0 ->
  distinct_labels df0 = true ->
  date_column df0 = Some c ->
  let sorted := sort_values (dated df0 c) c in
  prepared df0 = Ok sorted
  /\ len sorted = len df0
  /\ Permutation (index sorted) (index df0)
  /\ exists rest,
       report fs file_path = Ok ((Rows, "Rows: " ++ nat_str (len df0)) :: rest)
       /\ (forall l, ~ In (Rows, l) rest)
       /\ analyze_air_quality_csv fs file_path
          = Ok (join nl (("Rows: " ++ nat_str (len df0)) :: map snd rest)).
Proof.
  intros L D E sorted. subst sorted.
  pose proof (distinct_one_date _ D) as U.
  rewrite (sort_values_dated _ _ U E).
  pose proof (read_csv_rectangular _ _ _ L) as R.
  pose proof (prepared_date _ _ U E) as P.
  pose proof (nargsort_parsed_dates _ _ R U E) as Pi.
  assert (Ln : len (DataFrame_take (nargsort (parsed_dates df0 c)) (dated df0 c)) = len df0)
    by (exact (len_take _ (dated df0 c) Pi)).
  split; [exact P|]. split; [exact Ln|]. split.
  { unfold DataFrame_take, DataFrame_apply, dated. simpl. now apply take_Permutation. }
  eexists. split; [|split].
  - rewrite (report_loaded _ _ _ _ L P), describe_eq, Ln. reflexivity.
  - intros l. apply no_rows_after_first.
  - rewrite (analyze_loaded _ _ _ _ L P), describe_eq, Ln. reflexivity.
Qed.

(** C10, amended.  For a dataset whose pollutant column set is not empty
    (and whose date label, if any, is carried by one column), the report has
    its "Means:" line and neither the notice nor the preview.  The line is
    bare, with nothing after the prefix, exactly when no pollutant column was
    read as numbers, as is a column that holds text.  A pollutant column
    without a value in any row was read as numbers: it does not make the line
    bare. *)
Theorem bare_means_line (fs : FileSystem) (file_path : string) (df0 : DataFrame) :
  read_csv fs file_path = Ok df0 ->
  one_date_column df0 = true ->
  find_pollutants (normalize_columns df0) <> [] ->
  let data := normalize_columns df0 in
  exists desc,
    report fs file_path = Ok desc
    /\ analyze_air_quality_csv fs file_path = Ok (join nl (map snd desc))
    /\ (exists l, In (Means, l) desc)
    /\ (forall l, In (Means, l) desc ->
          (l = "Means: " <->
           forall p s, In p (find_pollutants data) -> In s (getitem data p) ->
                       is_numeric s = false))
    /\ (forall l, ~ In (Notice, l) desc /\ ~ In (Preview, l) desc)
    /\ (forall s t, In (Text t) (cells s) -> is_numeric s = false).
Proof.
  intros L U NE data.
  pose proof (read_csv_rectangular _ _ _ L) as R.
  destruct (prepared_ok df0 R U) as [df [P [Hc _]]].
  destruct (prepared_pollutant_columns _ _ R U P) as [idx [_ G]].
  assert (FP : find_pollutants df = find_pollutants data)
    by (unfold find_pollutants; now rewrite Hc).
  assert (V : forall p, In p (find_pollutants data) -> In p VOCABULARY).
  { intros p Hp. unfold find_pollutants in Hp. now apply filter_In in Hp. }
  exists (describe df (date_column df0)).
  split; [now apply report_loaded|]. split; [now apply analyze_loaded|].
  split; [|split; [|split]].
  - eexists. apply describe_means. rewrite FP. split; [exact NE | reflexivity].
  - intros l Hl. apply describe_means in Hl. destruct Hl as [_ ->]. rewrite FP. split.
    + intros B p s Hp Hs.
      destruct (is_numeric s) eqn:N; [exfalso | reflexivity].
      unfold means_line in B.
      assert (NEm : mean_numeric_only (select df (find_pollutants data)) <> []).
      { unfold mean_numeric_only. intros Em. apply map_eq_nil in Em.
        assert (I : In (p, Series_apply (fun A => @take idx A) s)
                       (filter (fun c => is_numeric (snd c))
                               (select df (find_pollutants data)))).
        { apply filter_In. split; [|simpl; now rewrite is_numeric_apply].
          unfold select. apply in_flat_map. exists p. split; [exact Hp|].
          apply filter_In. split; [|apply String.eqb_refl].
          apply getitem_In_cols. rewrite (G p (V p Hp)). now apply in_map. }
        rewrite Em in I. contradiction. }
      apply to_dict_not_empty in NEm.
      destruct (to_dict _) as [| kv d]; [contradiction|].
      cbn [map] in B.
      assert (J : join "; " ((fst kv ++ "=" ++ fmt_float (snd kv))
                               :: map (fun kv0 => fst kv0 ++ "=" ++ fmt_float (snd kv0)) d)
                  <> "").
      { apply join_not_empty. destruct (fst kv); discriminate. }
      apply J. destruct (join _ _); [reflexivity | discriminate B].
    + intros NN. apply means_line_bare. intros p s Hp Hs.
      rewrite (G p (V p Hp)) in Hs. apply in_map_iff in Hs.
      destruct Hs as [s0 [<- Hs0]]. rewrite is_numeric_apply. now apply (NN p).
  - intros l. split; intros Hin;
      apply describe_no_fallback in Hin; try (rewrite FP; exact NE); tauto.
  - intros s t Hin. destruct (is_numeric s) eqn:N; [|reflexivity].
    exfalso. now apply (numeric_holds_no_text s t N).
Qed.

(** C5, amended.  A dataset without a pollutant column, whose date label (if
    any) is carried by one column, is not an error: the report is returned,
    and it ends with the notice and the rendering, without row labels, of the
    first five rows (all of them when there are fewer) of the frame as
    sorted, under the normalised labels in load order.  The rows shown are
    rows of the loaded frame, taken along a permutation of the positions
    that puts the dates in ascending order, the missing ones last; without a
    date column they are the first loaded rows.  Before the notice come the
    row count and at most the date range: there is no "Means:" line, and
    without a date column no "Date range:" line. *)
Theorem preview_without_pollutants
    (fs : FileSystem) (file_path : string) (df0 : DataFrame) :
  read_csv fs file_path = Ok df0 ->
  one_date_column df0 = true ->
  find_pollutants (normalize_columns df0) = [] ->
  exists shown front,
    prepared df0 = Ok shown
    /\ report fs file_path
       = Ok (front ++ [(Notice, NOTICE);
                       (Preview, to_string false (DataFrame_head 5 shown))])%list
    /\ analyze_air_quality_csv fs file_path
       = Ok (join nl (map snd front
                        ++ [NOTICE; to_string false (DataFrame_head 5 shown)])%list)
    /\ len (DataFrame_head 5 shown) = Nat.min 5 (len df0)
    /\ columns (DataFrame_head 5 shown)
       = map (fun c => str_lower (str_strip c)) (columns df0)
    /\ (date_column df0 = None -> shown = normalize_columns df0)
    /\ (forall c, date_column df0 = Some c ->
          exists idx,
            Permutation idx (seq 0 (len df0))
            /\ shown = DataFrame_take idx (dated df0 c)
            /\ date_values shown c = take idx (parsed_dates df0 c)
            /\ ascending_na_last (date_values shown c)
            /\ forall k j, (k < 5)%nat -> nth_error idx k = Some j ->
                 nth_error (index (DataFrame_head 5 shown)) k = nth_error (index df0) j
                 /\ row (DataFrame_head 5 shown) k = row (dated df0 c) j)
    /\ (forall k l, In (k, l) front ->
          k = Rows \/ (k = DateRange /\ date_column df0 <> None)).
Proof.
  intros L U NP.
  pose proof (read_csv_rectangular _ _ _ L) as R.
  destruct (prepared_ok df0 R U) as [df [P [Hc [Hl [Hn Hd]]]]].
  assert (FP : find_pollutants df = []) by (unfold find_pollutants in *; now rewrite Hc).
  exists df, ((Rows, rows_line (len df)) :: date_range_lines df (date_column df0)).
  split; [exact P|]. split; [|split; [|split; [|split; [|split; [|split]]]]].
  - rewrite (report_loaded _ _ _ _ L P). now rewrite describe_fallback.
  - rewrite (analyze_loaded _ _ _ _ L P), describe_fallback by exact FP.
    now rewrite map_app.
  - unfold len, DataFrame_head, DataFrame_apply in *. cbn [index].
    now rewrite length_firstn, Hl.
  - unfold DataFrame_head. now rewrite columns_apply, Hc, columns_normalize.
  - exact Hn.
  - intros c E. destruct (Hd c E) as [Edf Edv].
    pose proof (nargsort_parsed_dates _ _ R U E) as Pi.
    exists (nargsort (parsed_dates df0 c)).
    split; [exact Pi|]. split; [exact Edf|]. split; [exact Edv|]. split.
    + rewrite Edv. apply take_nargsort_ascending.
    + intros k j Hk Ek.
      destruct (sorted_rows df0 c _ R U E Pi k j Ek) as [S1 S2].
      rewrite Edf. split.
      * unfold DataFrame_head, DataFrame_apply at 1. cbn [index].
        rewrite nth_error_firstn. apply Nat.ltb_lt in Hk. rewrite Hk. exact S1.
      * rewrite row_head by exact Hk. exact S2.
  - intros k l [E | Hin].
    + inversion E. now left.
    + apply in_date_range_lines in Hin. destruct Hin as [-> [c [E _]]].
      right. split; [reflexivity | congruence].
Qed.

(** C6. A failure raised while the trend of one pollutant is computed is
    caught and the pollutant is skipped: the loop yields the messages it
    yields without that pollutant, those of the columns before it and after
    it, and the report is returned, its trend line (if any) made of these
    messages. *)
Theorem failed_trend_is_skipped
    (fs : FileSystem) (file_path : string) (df0 df : DataFrame)
    (before after : list string) (pol e : string) :
  read_csv fs file_path = Ok df0 ->
  prepared df0 = Ok df ->
  find_pollutants df = (before ++ pol :: after)%list ->
  trend_of (DataFrame_head (len df / 4) df) (DataFrame_tail (len df / 4) df) pol
  = Raise e ->
  let head := DataFrame_head (len df / 4) df in
  let tail := DataFrame_tail (len df / 4) df in
  trend_msgs head tail (before ++ pol :: after)
  = trend_msgs head tail (before ++ after)
  /\ trend_msgs head tail (before ++ after)
     = (trend_msgs head tail before ++ trend_msgs head tail after)%list
  /\ exists desc,
       report fs file_path = Ok desc
       /\ analyze_air_quality_csv fs file_path = Ok (join nl (map snd desc))
       /\ forall l, In (Trends, l) desc ->
            l = "Simple trends: " ++ join "; " (trend_msgs head tail (before ++ after)).
Proof.
  intros L P FP F head tail.
  assert (S : trend_msgs head tail (before ++ pol :: after)
              = trend_msgs head tail (before ++ after)).
  { rewrite !trend_msgs_app, trend_msgs_cons. unfold trend_step.
    subst head tail. now rewrite F. }
  split; [exact S|]. split; [apply trend_msgs_app|].
  exists (describe df (date_column df0)).
  split; [now apply report_loaded|]. split; [now apply analyze_loaded|].
  intros l Hl. apply describe_trends in Hl. destruct Hl as [_ [_ [_ ->]]].
  unfold trends_line, quartile_msgs. fold head tail. now rewrite FP, S.
Qed.


(** C9. Whenever the report has a "Date range:" line, the column has a date
    that is not missing, so both bounds are present: the line is made of two
    dates, and "N/A" occurs nowhere in it. *)
Theorem date_range_bounds_present
    (fs : FileSystem) (file_path : string) (df0 df : DataFrame) (l : string) :
  read_csv fs file_path = Ok df0 ->
  prepared df0 = Ok df ->
  In (DateRange, l) (describe df (date_column df0)) ->
  report fs file_path = Ok (describe df (date_column df0))
  /\ exists c lo hi,
       date_column df0 = Some c
       /\ Series_min (date_values df c) = Some lo
       /\ Series_max (date_values df c) = Some hi
       /\ l = "Date range: " ++ date_str lo ++ " → " ++ date_str hi
       /\ forall a b, l <> a ++ "N/A" ++ b.
Proof.
  intros L P Hin. split; [now apply report_loaded|].
  apply describe_date_range in Hin. destruct Hin as [c [E [N ->]]].
  destruct (bounds_exist _ N) as [lo [hi [Elo Ehi]]].
  exists c, lo, hi. split; [exact E|]. split; [exact Elo|]. split; [exact Ehi|].
  unfold date_range_line. rewrite Elo, Ehi. simpl render_bound.
  split; [reflexivity|]. apply date_range_line_no_NA.
Qed.

(** C1, amended.  For a dataset (a loaded frame with distinct labels) whose
    pollutant column set is not empty, the report has one "Means:" line: an
    entry "col=mean" for each word of the vocabulary, in vocabulary order,
    that labels a column read as numbers, joined by "; ".  The mean is the
    float64 mean of the column of the frame as sorted, over the rows that
    hold a number, rendered with two decimals; for integers that are exactly
    summable it is the exact sum over the count, whatever the order of the
    rows.  A pollutant column that holds text is excluded, and nothing is
    raised; a pollutant column without a value in any row is not excluded:
    it was read as numbers and is listed with "nan". *)
Theorem means_line_of_numeric_pollutants
    (fs : FileSystem) (file_path : string) (df0 : DataFrame) :
  read_csv fs file_path = Ok df0 ->
  distinct_labels df0 = true ->
  find_pollutants (normalize_columns df0) <> [] ->
  let data := normalize_columns df0 in
  exists sorted idx desc,
    prepared df0 = Ok sorted
    /\ report fs file_path = Ok desc
    /\ analyze_air_quality_csv fs file_path = Ok (join nl (map snd desc))
    /\ Permutation idx (seq 0 (len df0))
    /\ (forall p, In p VOCABULARY ->
          getitem sorted p = map (Series_apply (fun A => @take idx A)) (getitem data p))
    /\ (forall l, In (Means, l) desc <->
          l = "Means: "
                ++ join "; "
                     (map (fun c => c ++ "=" ++ fmt_float (spec_column_mean sorted c))
                          (filter (reads_as_numbers data) VOCABULARY)))
    /\ (forall c s, getitem sorted c = [s] -> is_numeric s = true ->
          spec_column_mean sorted c = skip_missing_mean s)
    /\ (forall c zs, getitem data c = [Int64 zs] -> In c VOCABULARY ->
          zs <> [] -> exactly_summable zs = true ->
          spec_column_mean sorted c
          = PrimFloat.div (Z_to_float (Zsum zs)) (Z_to_float (Z.of_nat (List.length zs))))
    /\ (forall c s, getitem data c = [s] -> In c VOCABULARY ->
          is_numeric s = true -> filter holds_number (cells s) = [] ->
          reads_as_numbers data c = true
          /\ fmt_float (spec_column_mean sorted c) = "nan")
    /\ (forall c s t, getitem data c = [s] -> In (Text t) (cells s) ->
          reads_as_numbers data c = false).
Proof.
  intros L D NE data. subst data.
  pose proof (distinct_one_date _ D) as U.
  pose proof (read_csv_rectangular _ _ _ L) as R.
  destruct (prepared_ok df0 R U) as [df [P [Hc _]]].
  destruct (prepared_pollutant_columns _ _ R U P) as [idx [Pi G]].
  assert (FP : find_pollutants df = find_pollutants (normalize_columns df0))
    by (unfold find_pollutants; now rewrite Hc).
  assert (SL : forall c s, getitem (normalize_columns df0) c = [s] -> Series_len s = len df0).
  { intros c s E. rewrite <- rectangular_normalize in R.
    apply (rectangular_getitem (normalize_columns df0) c s R).
    rewrite E. now left. }
  exists df, idx, (describe df (date_column df0)).
  split; [exact P|].
  split; [now apply report_loaded|]. split; [now apply analyze_loaded|].
  split; [exact Pi|]. split; [exact G|].
  split; [|split; [|split; [|split]]].
  - intros l. rewrite describe_means, means_line_spec.
    2:{ rewrite Hc. now apply nodupb_NoDup. }
    rewrite FP. unfold spec_means_line, spec_mean_entry.
    rewrite (filter_ext_in (reads_as_numbers df) (reads_as_numbers (normalize_columns df0))).
    + tauto.
    + intros p Hp. now apply prepared_reads_as_numbers.
  - intros c s E N. unfold spec_column_mean. now rewrite E, N.
  - intros c zs E Hv NEz Ez. unfold spec_column_mean.
    rewrite (G c Hv), E. cbn [map Series_apply is_numeric].
    rewrite <- nanmean_skip_missing by reflexivity. cbn [float_values].
    assert (Pz : Permutation (take idx zs) zs).
    { apply take_Permutation. specialize (SL c _ E). simpl in SL. now rewrite SL. }
    rewrite nanmean_exact.
    + now rewrite (Zsum_Permutation _ _ Pz), (Permutation_length Pz).
    + intros E0. rewrite E0 in Pz. apply Permutation_nil in Pz. contradiction.
    + now rewrite (exactly_summable_Permutation _ _ Pz).
  - intros c s E Hv N Em. split; [unfold reads_as_numbers; now rewrite E|].
    unfold spec_column_mean. rewrite (G c Hv), E. cbn [map].
    rewrite is_numeric_apply, N, skip_missing_mean_none; [reflexivity|].
    rewrite cells_take. apply filter_take_empty; [|exact Em].
    rewrite cells_length. now rewrite (SL c s E).
  - intros c s t E T. unfold reads_as_numbers. rewrite E.
    destruct (is_numeric s) eqn:N; [|reflexivity].
    exfalso. now apply (numeric_holds_no_text s t N).
Qed.


End Report.

(* ================================================================== *)
(** * The sample file *)

Section Sample.
Context `{Pandas}.

Lemma sample_normalized : normalize_columns sample_frame = sample_frame.
Proof. rewrite normalize_columns_ascii by reflexivity. reflexivity. Qed.

Lemma sample_sorted :
  sort_values (setitem sample_frame "date" (Datetime64 sample_dates)) "date"
  = setitem sample_frame "date" (Datetime64 sample_dates).
Proof.
  unfold sort_values.
  change (date_values (setitem sample_frame "date" (Datetime64 sample_dates)) "date")
    with sample_dates.
  assert (N : nargsort sample_dates = [0; 1; 2; 3]%nat).
  { unfold nargsort.
    let v := eval vm_compute in (non_nan_of (enumerate sample_dates)) in
    change (non_nan_of (enumerate sample_dates)) with v.
    cbn [map snd fst]. rewrite argsort_increasing.
    - vm_compute. reflexivity.
    - repeat (constructor; try reflexivity). }
  rewrite N. reflexivity.
Qed.

Lemma sample_means :
  means_line (setitem sample_frame "date" (Datetime64 sample_dates))
             ["pm25"; "pm10"; "no2"]
  = "Means: pm25=54.25; pm10=98.75; no2=36.25".
Proof.
  unfold means_line, mean_numeric_only.
  change (select (setitem sample_frame "date" (Datetime64 sample_dates))
                 ["pm25"; "pm10"; "no2"])
    with [("pm25", Int64 [65; 58; 50; 44]);
          ("pm10", Int64 [118; 100; 92; 85]);
          ("no2", Int64 [40; 38; 35; 32])].
  change (map (fun c : string * Series => (fst c, nanmean (float_values (snd c))))
            (filter (fun c : string * Series => is_numeric (snd c))
               [("pm25", Int64 [65; 58; 50; 44]);
                ("pm10", Int64 [118; 100; 92; 85]);
                ("no2", Int64 [40; 38; 35; 32])]))
    with [("pm25", nanmean (map Z_to_float [65; 58; 50; 44]));
          ("pm10", nanmean (map Z_to_float [118; 100; 92; 85]));
          ("no2", nanmean (map Z_to_float [40; 38; 35; 32]))].
  rewrite !nanmean_exact by first [discriminate | vm_compute; reflexivity].
  vm_compute. reflexivity.
Qed.

(** C3. On the four-row sample (header date,pm25,pm10,no2) the report is
    exactly "Rows: 4", "Date range: 2025-01-01 → 2025-07-01" and
    "Means: pm25=54.25; pm10=98.75; no2=36.25": there is no "Simple trends:"
    line.  This holds for every reading of the file that types the columns as
    pandas does and reads the four dates for what they are. *)
Theorem sample_report (fs : FileSystem) (file_path : string) :
  fs file_path = Some sample_csv ->
  parse_csv sample_csv = Ok sample_frame ->
  to_datetime (Object [Some "2025-01-01"; Some "2025-03-01";
                       Some "2025-05-01"; Some "2025-07-01"]) = sample_dates ->
  report fs file_path = Ok sample_lines
  /\ analyze_air_quality_csv fs file_path
     = Ok (join nl ["Rows: 4";
                    "Date range: 2025-01-01 → 2025-07-01";
                    "Means: pm25=54.25; pm10=98.75; no2=36.25"])
  /\ forall l, ~ In (Trends, l) sample_lines.
Proof.
  intros F Pc Td.
  assert (Rp : report fs file_path = Ok sample_lines).
  { unfold report, read_csv. rewrite F, Pc. cbn [bind].
    rewrite sample_normalized.
    change (find_date_col sample_frame) with (Some "date").
    unfold parse_dates.
    change (getitem sample_frame "date")
      with [Object [Some "2025-01-01"; Some "2025-03-01";
                    Some "2025-05-01"; Some "2025-07-01"]].
    cbv beta iota. rewrite Td, sample_sorted. cbn [bind].
    unfold describe.
    change (find_pollutants (setitem sample_frame "date" (Datetime64 sample_dates)))
      with ["pm25"; "pm10"; "no2"].
    cbv beta iota zeta. rewrite sample_means.
    unfold trend_lines.
    replace (8 <=? len (setitem sample_frame "date" (Datetime64 sample_dates)))%nat
      with false by reflexivity.
    rewrite andb_false_r. vm_compute. reflexivity. }
  split; [exact Rp|]. split.
  - unfold analyze_air_quality_csv. rewrite Rp. reflexivity.
  - intros l Hin. simpl in Hin. intuition discriminate.
Qed.

End Sample.

(* ================================================================== *)
(** * More of the summariser

    Properties of [analyze_air_quality_csv] that its code shows beyond the
    report lines taken one by one: the shapes a report can take, what sorting
    and slicing do to the rows, how the columns are recognised, how a number
    is printed. *)

Section Shapes.
Context `{Pandas}.

(** X2. A report that is returned has one of five shapes: the row count,
    then the date range if the data has dates, then either the notice and the
    preview, or the means followed, possibly, by the trends.  A trends line
    never comes without a date range line and a means line before it. *)
Theorem report_shapes (fs : FileSystem) (file_path : string)
    (desc : list (line_kind * string)) :
  report fs file_path = Ok desc -> In (map fst desc) REPORT_SHAPES.
Proof.
  unfold report. destruct (read_csv fs file_path) as [df0 | e]; [|discriminate].
  simpl. destruct (parse_dates _ _) as [df | e]; [|discriminate].
  simpl. intros E. inversion E. apply describe_shapes.
Qed.

(** X3. A file with a header and no row, whose date label (if any) is carried
    by one column, is reported on without error: the count is 0, there is
    neither a date range nor a trend, and the rest is the means line or the
    notice and the preview. *)
Theorem empty_dataset (fs : FileSystem) (file_path : string) (df0 : DataFrame) :
  read_csv fs file_path = Ok df0 ->
  one_date_column df0 = true ->
  len df0 = 0%nat ->
  exists rest,
    report fs file_path = Ok ((Rows, "Rows: 0") :: rest)
    /\ (map fst rest = [Means] \/ map fst rest = [Notice; Preview]).
Proof.
  intros L D Hz.
  pose proof (read_csv_rectangular _ _ _ L) as R.
  destruct (prepared_ok df0 R D) as [df [P [_ [Hl [_ Hd]]]]].
  assert (ND : has_dates df (date_column df0) = false).
  { unfold has_dates. destruct (date_column df0) as [c|] eqn:E; [|reflexivity].
    destruct (Hd c eq_refl) as [_ ->].
    pose proof (parsed_dates_length df0 c R D E) as PL. rewrite Hz in PL.
    destruct (parsed_dates df0 c); [now rewrite take_nil | discriminate]. }
  rewrite (report_loaded _ _ _ _ L P), describe_eq, Hl, Hz.
  destruct (date_range_lines_kinds df (date_column df0)) as [[_ ->] | [Hd' _]];
    [|congruence].
  eexists. split; [reflexivity|]. simpl. unfold report_body.
  destruct (find_pollutants df) as [| p ps] eqn:EP; [now right|]. rewrite <- EP.
  destruct (trend_lines_kinds df (date_column df0)) as [-> | [Ht _]]; [|congruence].
  now left.
Qed.


(** X5. Sorting by date moves whole rows: there is one permutation of the
    positions along which the row labels and the cells of every column are
    taken, so that each row of the sorted frame is a row of the frame as
    loaded (with its date parsed), and each loaded row is kept once. *)
Theorem sorted_rows_are_loaded_rows
    (fs : FileSystem) (file_path : string) (df0 : DataFrame) (c : string) :
  read_csv fs file_path = Ok df0 ->
  distinct_labels df0 = true ->
  date_column df0 = Some c ->
  exists idx,
    Permutation idx (seq 0 (len df0))
    /\ forall k j, nth_error idx k = Some j ->
         nth_error (index (sort_values (dated df0 c) c)) k = nth_error (index df0) j
         /\ row (sort_values (dated df0 c) c) k = row (dated df0 c) j.
Proof.
  intros L D E.
  pose proof (distinct_one_date _ D) as U.
  pose proof (read_csv_rectangular _ _ _ L) as R.
  rewrite (sort_values_dated _ _ U E).
  pose proof (nargsort_parsed_dates _ _ R U E) as Pi.
  exists (nargsort (parsed_dates df0 c)). split; [exact Pi|].
  now apply sorted_rows.
Qed.

(** X12. When several columns carry the same pollutant label, the means line
    still has one entry for it: the keys of the dict of the means are
    distinct, and the value under a label is the mean of the last numeric
    column that carries it (none when no numeric column does, or when the
    label is not in the vocabulary). *)
Theorem means_of_repeated_labels (df : DataFrame) :
  NoDup (map fst (means_dict df))
  /\ means_line df (find_pollutants df)
     = "Means: " ++ join "; " (map (fun kv => fst kv ++ "=" ++ fmt_float (snd kv))
                                   (means_dict df))
  /\ forall k,
       dict_get (means_dict df) k
       = if mem k VOCABULARY
         then option_map (fun s => nanmean (float_values s)) (last_numeric df k)
         else None.
Proof.
  split; [apply to_dict_NoDup|]. split; [reflexivity|].
  intros k. unfold means_dict. rewrite to_dict_get.
  unfold dict_get, last_numeric, mean_numeric_only.
  rewrite <- map_rev, <- filter_rev.
  set (p := fun c : string * Series => String.eqb (fst c) k && is_numeric (snd c)).
  assert (F : forall l : list (string * Series),
             option_map snd
               (find (fun kv : string * float => String.eqb (fst kv) k)
                  (map (fun c => (fst c, nanmean (float_values (snd c))))
                     (filter (fun c => is_numeric (snd c)) l)))
             = option_map (fun s => nanmean (float_values s))
                 (option_map snd (hd_error (filter p l)))).
  { intros l. induction l as [| c l IH]; [reflexivity|]. simpl. subst p. simpl.
    destruct (is_numeric (snd c)); simpl.
    - destruct (String.eqb (fst c) k); simpl; [reflexivity | exact IH].
    - rewrite andb_false_r. exact IH. }
  rewrite F, filter_rev. subst p. rewrite select_label.
  2:{ unfold find_pollutants. apply NoDup_filter, NoDup_VOCABULARY. }
  rewrite find_hd_filter, filter_rev.
  destruct (mem k (find_pollutants df)) eqn:M.
  - assert (MV : mem k VOCABULARY = true).
    { apply mem_In. apply mem_In in M. unfold find_pollutants in M.
      now apply filter_In in M. }
    now rewrite MV.
  - destruct (mem k VOCABULARY) eqn:MV; [|reflexivity].
    assert (NC : ~ In k (columns df)).
    { intros Hc. apply mem_false in M. apply M. unfold find_pollutants.
      apply filter_In. split; [now apply mem_In | now apply mem_In]. }
    rewrite (filter_none _ (cols df)); [reflexivity|].
    intros c Hc.
    destruct (String.eqb (fst c) k) eqn:E; [|reflexivity].
    apply String.eqb_eq in E. exfalso. apply NC. unfold columns.
    apply in_map_iff. now exists c.
Qed.

(** X13. Every frame the script works on has one value per row in every
    column: the frame as loaded, relabelled, dated and sorted, and any head or
    tail taken from it. *)
Theorem frames_stay_rectangular
    (fs : FileSystem) (file_path : string) (df0 df : DataFrame) (n : nat) :
  read_csv fs file_path = Ok df0 ->
  prepared df0 = Ok df ->
  rectangular df = true
  /\ rectangular (DataFrame_head n df) = true
  /\ rectangular (DataFrame_tail n df) = true
  /\ len (DataFrame_head n df) = Nat.min n (len df)
  /\ len (DataFrame_tail n df) = Nat.min n (len df).
Proof.
  intros L P. pose proof (read_csv_rectangular _ _ _ L) as R.
  rewrite <- rectangular_normalize in R.
  assert (Rd : rectangular df = true).
  { unfold prepared, parse_dates in P.
    destruct (date_column df0) as [c|]; [|now inversion P].
    destruct (getitem (normalize_columns df0) c) as [| s [| ? ?]] eqn:G;
      try discriminate.
    inversion P; subst df; clear P.
    assert (Ls : Series_len s = len (normalize_columns df0)).
    { apply (rectangular_getitem _ c s R). rewrite G. now left. }
    assert (Rs : rectangular (setitem (normalize_columns df0) c
                                (Datetime64 (to_datetime s))) = true).
    { apply rectangular_setitem; [|exact R]. simpl. now rewrite to_datetime_length. }
    unfold sort_values, DataFrame_take.
    assert (Dv : date_values (setitem (normalize_columns df0) c
                                (Datetime64 (to_datetime s))) c = to_datetime s).
    { unfold date_values. now rewrite getitem_setitem_same, G. }
    rewrite Dv.
    apply (rectangular_apply _ _ (len (normalize_columns df0))); [|exact Rs].
    intros A l El.
    assert (El' : List.length l = len (normalize_columns df0)) by exact El.
    rewrite take_length; [exact El'|].
    rewrite El', <- Ls, <- to_datetime_length. apply nargsort_Permutation. }
  split; [exact Rd|]. split; [|split; [|split]].
  - apply (rectangular_apply _ _ (Nat.min n (len df))); [|exact Rd].
    intros A l El. now rewrite length_firstn, El.
  - apply (rectangular_apply _ _ (Nat.min n (len df))); [|exact Rd].
    intros A l El. now rewrite lastn_length, El.
  - unfold len, DataFrame_head, DataFrame_apply. cbn [index]. apply length_firstn.
  - unfold len, DataFrame_tail, DataFrame_apply. cbn [index]. apply lastn_length.
Qed.

(** X9. On ASCII labels, normalising twice changes nothing more: a label
    that was trimmed and lowered is its own normal form, so a frame that was
    relabelled is recognised as it stands. *)
Theorem normalize_columns_idempotent (df : DataFrame) :
  forallb is_ascii (columns df) = true ->
  normalize_columns (normalize_columns df) = normalize_columns df.
Proof.
  intros A. rewrite (normalize_columns_ascii df A).
  rewrite normalize_columns_ascii.
  - cbn [index cols]. f_equal. rewrite map_map. apply map_ext.
    intros [c s]. cbn [fst snd]. f_equal.
    now rewrite strip_lower, lower_idem, strip_idem.
  - unfold columns. cbn [cols]. rewrite map_map.
    rewrite forallb_forall in *. intros c Hc.
    apply in_map_iff in Hc. destruct Hc as [[c0 s0] [<- Hin]]. cbn [fst].
    rewrite is_ascii_lower. apply is_ascii_strip, A.
    unfold columns. apply in_map_iff. now exists (c0, s0).
Qed.

End Shapes.

(** X6. The two slices compared for the trend never overlap: the rows are the
    head of [n / 4] rows, then the rows in between, then the tail of [n / 4]
    rows, and at least half of the rows are in between.  The same holds of
    the cells of each column. *)
Theorem quartile_slices_disjoint (df : DataFrame) :
  let q := (len df / 4)%nat in
  index df
  = (index (DataFrame_head q df) ++ middle (index df) ++ index (DataFrame_tail q df))%list
  /\ (len df <= 2 * List.length (middle (index df)))%nat
  /\ forall s, Series_len s = len df ->
       cells s = (cells (Series_apply (fun A => @firstn A q) s)
                    ++ middle (cells s)
                    ++ cells (Series_apply (fun A => @lastn A q) s))%list.
Proof.
  intros q. destruct (quartile_partition (index df)) as [P1 P2].
  split; [exact P1|]. split; [exact P2|].
  intros s Ls. rewrite cells_firstn, cells_lastn.
  destruct (quartile_partition (cells s)) as [P3 _].
  rewrite cells_length, Ls in P3. exact P3.
Qed.

(** X7. The date column is the first name of the list date, timestamp, day,
    datetime that labels a column, whatever the order of the columns: the
    names before it label none.  Without any of the four there is no date
    column. *)
Theorem date_column_priority (df : DataFrame) :
  match find_date_col df with
  | Some c =>
      In c (columns df)
      /\ exists before after,
           DATE_CANDIDATES = (before ++ c :: after)%list
           /\ forall b, In b before -> ~ In b (columns df)
  | None => forall c, In c DATE_CANDIDATES -> ~ In c (columns df)
  end.
Proof.
  unfold find_date_col.
  pose proof (find_first (fun cand => mem cand (columns df)) DATE_CANDIDATES) as F.
  destruct (find _ DATE_CANDIDATES) as [c|].
  - destruct F as [before [after [E [M B]]]]. split; [now apply mem_In|].
    exists before, after. split; [exact E|].
    intros b Hb. apply mem_false. now apply B.
  - intros c Hc. apply mem_false. now apply F.
Qed.

(** X8. What is recognised depends on the set of labels only: two frames
    with the same labels, in any order, have the same date column and the
    same pollutant columns, listed in the same (vocabulary) order. *)
Theorem recognition_ignores_column_order (df df' : DataFrame) :
  (forall x, In x (columns df) <-> In x (columns df')) ->
  find_date_col df = find_date_col df'
  /\ find_pollutants df = find_pollutants df'.
Proof.
  intros S.
  assert (M : forall x, mem x (columns df) = mem x (columns df')).
  { intros x. destruct (mem x (columns df)) eqn:A, (mem x (columns df')) eqn:B;
      try reflexivity.
    - apply mem_In, S, mem_In in A. congruence.
    - apply mem_In, S, mem_In in B. congruence. }
  split.
  - unfold find_date_col. induction DATE_CANDIDATES as [| a l IH]; [reflexivity|].
    simpl. rewrite M, IH. reflexivity.
  - unfold find_pollutants. apply filter_ext. exact M.
Qed.

(* ================================================================== *)
(** * Two decimals *)

Lemma Prim2SF_finite (v : float) (s : bool) (m : positive) (e : Z) :
  Prim2SF v = S754_finite s m e ->
  PrimFloat.is_nan v = false /\ PrimFloat.is_infinity v = false
  /\ PrimFloat.get_sign v = s.
Proof.
  unfold Prim2SF. destruct (is_nan v); [discriminate|].
  destruct (is_zero v); [discriminate|].
  destruct (is_infinity v); [discriminate|].
  destruct (Z.frexp v) as [r ex].
  destruct (shr_fexp _ _ _ _ _) as [sh e'].
  destruct (shr_m sh); try discriminate.
  intros E. inversion E. auto.
Qed.

Lemma magnitude_nonneg (m : positive) (e : Z) : (0 <= magnitude m e)%Q.
Proof.
  unfold magnitude. apply Qmult_le_0_compat; [discriminate|].
  apply Qpower_0_le. discriminate.
Qed.

(** X14. How [:.2f] prints a float64.  NaN is "nan" and an infinity is "inf",
    after a minus sign for the negative one.  Any other float is printed as
    a minus sign if its sign bit is set (also for -0.0 and for what rounds to
    zero), an integer part, a point and exactly two digits; the number of
    hundredths printed differs from the exact magnitude of the float, times
    100, by one half at most. *)
Theorem fmt_float_two_decimals (v : float) :
  if PrimFloat.is_nan v then fmt_float v = "nan"
  else if PrimFloat.is_infinity v
  then fmt_float v = sign_str (PrimFloat.get_sign v) ++ "inf"
  else exists c : Z,
         0 <= c
         /\ fmt_float v = sign_str (PrimFloat.get_sign v)
                            ++ Z_str (c / 100) ++ "." ++ zpad 2 (c mod 100)
         /\ String.length (zpad 2 (c mod 100)) = 2%nat
         /\ (Qabs (inject_Z c - abs_value v * 100) <= 1 # 2)%Q.
Proof.
  unfold fmt_float, abs_value.
  pose proof (SF2Prim_Prim2SF v) as E.
  destruct (Prim2SF v) as [s | s | | s m e] eqn:P.
  - rewrite <- E. destruct s; cbn [SF2Prim];
      (change (PrimFloat.is_nan _) with false; change (PrimFloat.is_infinity _) with false;
       cbv iota; exists 0; repeat split; try reflexivity; discriminate).
  - rewrite <- E. destruct s; cbn [SF2Prim];
      (change (PrimFloat.is_nan _) with false; change (PrimFloat.is_infinity _) with true;
       cbv iota; reflexivity).
  - apply isna_Prim2SF in P. unfold isna in P. now rewrite P.
  - destruct (Prim2SF_finite v s m e P) as [N [I S]]. rewrite N, I, S.
    assert (Px : (0 <= magnitude m e * 100)%Q).
    { apply Qmult_le_0_compat; [apply magnitude_nonneg | discriminate]. }
    destruct (round_half_even_close _ Px) as [Pc Cl].
    exists (round_half_even (magnitude m e * 100)).
    split; [exact Pc|]. split; [reflexivity|]. split; [|exact Cl].
    apply zpad2_length. apply Z.mod_pos_bound. lia.
Qed.

(* ================================================================== *)
(** * The requests and the file analysed *)

Lemma append_assoc (a b c : string) : (a ++ b) ++ c = a ++ (b ++ c).
Proof. induction a as [| x a IH]; simpl; [reflexivity|]. now rewrite IH. Qed.

Lemma append_length (a b : string) :
  String.length (a ++ b) = (String.length a + String.length b)%nat.
Proof. induction a as [| x a IH]; simpl; [reflexivity|]. now rewrite IH. Qed.

Lemma append_cancel_l (a x y : string) : a ++ x = a ++ y -> x = y.
Proof. induction a as [| c a IH]; simpl; intros E; [exact E|]. inversion E. auto. Qed.

Lemma append_cancel_r (b x y : string) : x ++ b = y ++ b -> x = y.
Proof.
  revert y. induction x as [| c x IH]; intros y E.
  - destruct y as [| d y]; [reflexivity|].
    apply (f_equal String.length) in E. simpl in E. rewrite append_length in E. lia.
  - destruct y as [| d y].
    + apply (f_equal String.length) in E. simpl in E. rewrite append_length in E. lia.
    + simpl in E. inversion E. f_equal. auto.
Qed.

(** X15. The request of [run_data] names its file without loss: two paths
    give the same request only when they are the same path, so what the agent
    answers is a function of the path that was handed over. *)
Theorem run_data_prompt_injective (p p' : string) :
  run_data_prompt p = run_data_prompt p' -> p = p'.
Proof.
  unfold run_data_prompt. intros E.
  apply append_cancel_l in E. now apply append_cancel_r in E.
Qed.

(** X16. The sections of the request of [synthesize] are not protected: a
    news report that holds the header of the policy section is read as a
    shorter news report and a longer policy report.  Text may so pass from one
    section to the next without the request changing. *)
Theorem synthesize_sections_can_shift (news x policy data innovation city : string) :
  synthesize_prompt (news ++ POLICY_HEADER ++ x) policy data innovation city
  = synthesize_prompt news (x ++ POLICY_HEADER ++ policy) data innovation city.
Proof.
  unfold synthesize_prompt, POLICY_HEADER.
  now rewrite !append_assoc.
Qed.

(** X17. The two modes of the page give the data analyst the same bytes
    whenever the Single Agent mode runs at all: the uploaded file if there is
    one, the sample otherwise.  They differ in one case: with nothing uploaded
    and the sample box unticked the Single Agent mode stops, and the Full Task
    Force mode, which does not look at the box, analyses the sample. *)
Theorem modes_agree (uploaded : option string) (sample_note sample_note' : bool) :
  task_force_csv uploaded sample_note = task_force_csv uploaded sample_note'
  /\ (single_agent_csv uploaded sample_note = None
      <-> uploaded = None /\ sample_note = false)
  /\ (forall bytes, single_agent_csv uploaded sample_note = Some bytes ->
                    task_force_csv uploaded sample_note' = bytes)
  /\ (forall bytes, uploaded = Some bytes ->
                    single_agent_csv uploaded sample_note = Some bytes).
Proof.
  destruct uploaded as [b|], sample_note; simpl; repeat split;
    try discriminate; try congruence; intros; intuition congruence.
Qed.

(* ================================================================== *)
(** * Runs on concrete files

    From here on the libraries are the small pandas. *)

#[export] Existing Instance SimplePandas.

Example fmt_float_examples :
  fmt_float 54.25%float = "54.25" /\ fmt_float (-1.5)%float = "-1.50"
  /\ fmt_float 0.125%float = "0.12" /\ fmt_float 0.375%float = "0.38"
  /\ fmt_float (PrimFloat.div (Z_to_float (-1)) (Z_to_float 1000)) = "-0.00"
  /\ fmt_float PrimFloat.zero = "0.00" /\ fmt_float PrimFloat.neg_zero = "-0.00"
  /\ fmt_float PrimFloat.nan = "nan" /\ fmt_float PrimFloat.infinity = "inf"
  /\ fmt_float PrimFloat.neg_infinity = "-inf".
Proof. vm_compute. repeat split; reflexivity. Qed.

(** One fortieth is not a float: the float next to it is above 0.025, and is
    printed 0.03. *)
Example mean_of_one_in_forty :
  fmt_float (nanmean (float_values (Int64 (1 :: repeat 0 39)))) = "0.03".
Proof. vm_compute. reflexivity. Qed.

(** A difference of infinite means is NaN, which no comparison finds small or
    negative. *)
Example trend_of_infinities :
  trend_decision "pm25" (PrimFloat.sub PrimFloat.infinity PrimFloat.infinity)
  = Ok (Some "pm25: increasing (~nan)").
Proof. vm_compute. reflexivity. Qed.

Example date_str_examples :
  date_str (days_from_civil 2025 7 1 * NS_PER_DAY + 5) = "2025-07-01"
  /\ date_str 0 = "1970-01-01" /\ date_str (-1) = "1969-12-31".
Proof. repeat split; reflexivity. Qed.

Example trend_report :
  analyze_air_quality_csv (one_file "aq.csv" trend_csv) "aq.csv"
  = Ok (join nl
          ["Rows: 8";
           "Date range: 2025-01-01 → 2025-08-01";
           "Means: pm25=54.25; pm10=98.75; o3=6.89";
           "Simple trends: pm25: decreasing (~-14.50); pm10: decreasing (~-20.50); o3: decreasing (~-3.50)"]).
Proof. vm_compute. reflexivity. Qed.

(** The float next to 1.000001 is below it: the tail mean is above the head
    mean by less than the float 1e-6, and there is no trend. *)
Example close_report :
  analyze_air_quality_csv (one_file "aq.csv" close_csv) "aq.csv"
  = Ok (join nl
          ["Rows: 8";
           "Date range: 2025-01-01 → 2025-01-08";
           "Means: pm25=1.00"]).
Proof. vm_compute. reflexivity. Qed.

(** Truth values with a missing one are kept as objects: the column has no
    entry among the means, and it has a trend. *)
Example truth_report :
  analyze_air_quality_csv (one_file "aq.csv" truth_csv) "aq.csv"
  = Ok (join nl
          ["Rows: 8";
           "Date range: 2025-01-01 → 2025-01-08";
           "Means: pm25=4.50";
           "Simple trends: pm25: increasing (~6.00); co: decreasing (~-1.00)"]).
Proof. vm_compute. reflexivity. Qed.

Example empty_report :
  analyze_air_quality_csv (one_file "aq.csv" empty_csv) "aq.csv"
  = Ok (join nl ["Rows: 0"; "Means: "]).
Proof. vm_compute. reflexivity. Qed.

Example repeated_pollutant_label :
  means_line repeated_frame (find_pollutants repeated_frame) = "Means: pm25=15.00"
  /\ column_mean repeated_frame "pm25" = Raise "ValueError".
Proof. vm_compute. split; reflexivity. Qed.

(** ** What the specification says and the script does not do *)

(** A pollutant column without a number in any row is not excluded from the
    means: it is a float64 column of NaN, and is listed with "nan". *)
Lemma missing_column_is_listed :
  read_csv (one_file "aq.csv" blank_csv) "aq.csv" = Ok blank_frame
  /\ find_pollutants (normalize_columns blank_frame) = ["pm25"]
  /\ (exists s, getitem (normalize_columns blank_frame) "pm25" = [s]
                /\ (forall c, In c (cells s) -> holds_number c = false))
  /\ analyze_air_quality_csv (one_file "aq.csv" blank_csv) "aq.csv"
     = Ok (join nl ["Rows: 2"; "Means: pm25=nan"]).
Proof.
  split; [vm_compute; reflexivity|]. split; [vm_compute; reflexivity|]. split.
  - exists (Float64 [PrimFloat.nan; PrimFloat.nan]). split; [vm_compute; reflexivity|].
    intros c [<- | [<- | []]]; reflexivity.
  - vm_compute. reflexivity.
Qed.

(** With pollutant columns that yield no numeric mean, the "Means:" line
    need not be bare: a column without a value in any row is listed. *)
Lemma missing_column_line_is_not_bare :
  read_csv (one_file "aq.csv" blank_aqi_csv) "aq.csv" = Ok blank_aqi_frame
  /\ find_pollutants (normalize_columns blank_aqi_frame) = ["aqi"]
  /\ (exists s, getitem (normalize_columns blank_aqi_frame) "aqi" = [s]
                /\ (forall c, In c (cells s) -> holds_number c = false))
  /\ report (one_file "aq.csv" blank_aqi_csv) "aq.csv"
     = Ok [(Rows, "Rows: 2");
           (DateRange, "Date range: 2025-01-01 → 2025-01-02");
           (Means, "Means: aqi=nan")]
  /\ "Means: aqi=nan" <> "Means: ".
Proof.
  split; [vm_compute; reflexivity|]. split; [vm_compute; reflexivity|]. split.
  - exists (Float64 [PrimFloat.nan; PrimFloat.nan]). split; [vm_compute; reflexivity|].
    intros c [<- | [<- | []]]; reflexivity.
  - split; [vm_compute; reflexivity | discriminate].
Qed.

(** Without a pollutant column the run can fail: with two columns labelled
    [date] after normalisation, [to_datetime] receives a sub-frame. *)
Lemma repeated_date_label_fails :
  read_csv (one_file "aq.csv" two_dates_csv) "aq.csv" = Ok two_dates_frame
  /\ find_pollutants (normalize_columns two_dates_frame) = []
  /\ columns (normalize_columns two_dates_frame) = ["date"; "date"; "x"]
  /\ analyze_air_quality_csv (one_file "aq.csv" two_dates_csv) "aq.csv"
     = Raise "ValueError".
Proof. repeat split; vm_compute; reflexivity. Qed.

(** ** The theorems at work *)

Lemma rows_count_is_load_count_witness :
  read_csv (one_file "aq.csv" trend_csv) "aq.csv" = Ok trend_frame
  /\ exists rest,
       report (one_file "aq.csv" trend_csv) "aq.csv" = Ok ((Rows, "Rows: 8") :: rest).
Proof.
  assert (L : read_csv (one_file "aq.csv" trend_csv) "aq.csv" = Ok trend_frame)
    by (vm_compute; reflexivity).
  assert (D : distinct_labels trend_frame = true) by (vm_compute; reflexivity).
  assert (E : date_column trend_frame = Some "date") by (vm_compute; reflexivity).
  split; [exact L|].
  destruct (rows_count_is_load_count _ _ _ _ L D E) as [_ [_ [_ [rest [Hr _]]]]].
  exists rest. exact Hr.
Defined.

Lemma bare_means_line_witness :
  read_csv (one_file "aq.csv" text_csv) "aq.csv" = Ok text_frame
  /\ exists desc,
       report (one_file "aq.csv" text_csv) "aq.csv" = Ok desc
       /\ forall l, In (Means, l) desc -> l = "Means: ".
Proof.
  assert (L : read_csv (one_file "aq.csv" text_csv) "aq.csv" = Ok text_frame)
    by (vm_compute; reflexivity).
  assert (U : one_date_column text_frame = true) by (vm_compute; reflexivity).
  assert (N : find_pollutants (normalize_columns text_frame) <> [])
    by (vm_compute; discriminate).
  split; [exact L|].
  destruct (bare_means_line _ _ _ L U N) as [desc [Hr [_ [_ [Hm _]]]]].
  exists desc. split; [exact Hr|].
  intros l Hl. apply (Hm l Hl).
  intros p s Hp Hs. vm_compute in Hp.
  destruct Hp as [<- | [<- | []]]; vm_compute in Hs;
    destruct Hs as [<- | []]; reflexivity.
Defined.

Lemma preview_without_pollutants_witness :
  read_csv (one_file "aq.csv" plain_csv) "aq.csv" = Ok plain_frame
  /\ exists shown, prepared plain_frame = Ok shown /\ len (DataFrame_head 5 shown) = 5%nat.
Proof.
  assert (L : read_csv (one_file "aq.csv" plain_csv) "aq.csv" = Ok plain_frame)
    by (vm_compute; reflexivity).
  assert (U : one_date_column plain_frame = true) by (vm_compute; reflexivity).
  assert (N : find_pollutants (normalize_columns plain_frame) = [])
    by (vm_compute; reflexivity).
  split; [exact L|].
  destruct (preview_without_pollutants _ _ _ L U N) as [shown [front [P [_ [_ [Hl _]]]]]].
  exists shown. split; [exact P | exact Hl].
Defined.

Lemma failed_trend_is_skipped_witness :
  trend_of (DataFrame_head 2 trend_sorted) (DataFrame_tail 2 trend_sorted) "co"
  = Raise "TypeError"
  /\ trend_msgs (DataFrame_head 2 trend_sorted) (DataFrame_tail 2 trend_sorted)
                ["pm25"; "pm10"; "co"; "o3"]
     = trend_msgs (DataFrame_head 2 trend_sorted) (DataFrame_tail 2 trend_sorted)
                  ["pm25"; "pm10"; "o3"].
Proof.
  assert (L : read_csv (one_file "aq.csv" trend_csv) "aq.csv" = Ok trend_frame)
    by (vm_compute; reflexivity).
  assert (P : prepared trend_frame = Ok trend_sorted) by (vm_compute; reflexivity).
  assert (F : find_pollutants trend_sorted = (["pm25"; "pm10"] ++ "co" :: ["o3"])%list)
    by (vm_compute; reflexivity).
  assert (T : trend_of (DataFrame_head (len trend_sorted / 4) trend_sorted)
                       (DataFrame_tail (len trend_sorted / 4) trend_sorted) "co"
              = Raise "TypeError") by (vm_compute; reflexivity).
  split; [exact T|].
  exact (proj1 (failed_trend_is_skipped _ _ _ _ _ _ _ _ L P F T)).
Defined.


Lemma date_range_bounds_present_witness :
  In (DateRange, "Date range: 2025-01-01 → 2025-08-01")
     (describe trend_sorted (date_column trend_frame))
  /\ forall a b, "Date range: 2025-01-01 → 2025-08-01" <> a ++ "N/A" ++ b.
Proof.
  assert (L : read_csv (one_file "aq.csv" trend_csv) "aq.csv" = Ok trend_frame)
    by (vm_compute; reflexivity).
  assert (P : prepared trend_frame = Ok trend_sorted) by (vm_compute; reflexivity).
  assert (I : In (DateRange, "Date range: 2025-01-01 → 2025-08-01")
                 (describe trend_sorted (date_column trend_frame)))
    by (vm_compute; tauto).
  split; [exact I|].
  destruct (date_range_bounds_present _ _ _ _ _ L P I)
    as [_ [c [lo [hi [_ [_ [_ [_ N]]]]]]]].
  exact N.
Defined.

Lemma means_line_of_numeric_pollutants_witness :
  read_csv (one_file "aq.csv" trend_csv) "aq.csv" = Ok trend_frame
  /\ exists sorted desc,
       prepared trend_frame = Ok sorted
       /\ report (one_file "aq.csv" trend_csv) "aq.csv" = Ok desc
       /\ exists l, In (Means, l) desc.
Proof.
  assert (L : read_csv (one_file "aq.csv" trend_csv) "aq.csv" = Ok trend_frame)
    by (vm_compute; reflexivity).
  assert (D : distinct_labels trend_frame = true) by (vm_compute; reflexivity).
  assert (N : find_pollutants (normalize_columns trend_frame) <> [])
    by (vm_compute; discriminate).
  split; [exact L|].
  destruct (means_line_of_numeric_pollutants _ _ _ L D N)
    as [sorted [idx [desc [P [Hr [_ [_ [_ [Hm _]]]]]]]]].
  exists sorted, desc. split; [exact P|]. split; [exact Hr|].
  eexists. apply Hm. reflexivity.
Defined.


Lemma sample_report_witness :
  report (one_file "sample.csv" sample_csv) "sample.csv" = Ok sample_lines.
Proof.
  apply (sample_report (one_file "sample.csv" sample_csv) "sample.csv");
    vm_compute; reflexivity.
Defined.

Lemma report_shapes_witness :
  exists desc,
    report (one_file "aq.csv" trend_csv) "aq.csv" = Ok desc
    /\ In (map fst desc) REPORT_SHAPES.
Proof.
  assert (R : report (one_file "aq.csv" trend_csv) "aq.csv"
              = Ok (describe trend_sorted (Some "date"))) by (vm_compute; reflexivity).
  eexists. split; [exact R|].
  exact (report_shapes _ _ _ R).
Defined.

Lemma empty_dataset_witness :
  read_csv (one_file "aq.csv" empty_csv) "aq.csv" = Ok empty_frame
  /\ exists rest,
       report (one_file "aq.csv" empty_csv) "aq.csv" = Ok ((Rows, "Rows: 0") :: rest).
Proof.
  assert (L : read_csv (one_file "aq.csv" empty_csv) "aq.csv" = Ok empty_frame)
    by (vm_compute; reflexivity).
  assert (U : one_date_column empty_frame = true) by (vm_compute; reflexivity).
  assert (Z0 : len empty_frame = 0%nat) by (vm_compute; reflexivity).
  split; [exact L|].
  destruct (empty_dataset _ _ _ L U Z0) as [rest [Hr _]].
  exists rest. exact Hr.
Defined.


Lemma sorted_rows_are_loaded_rows_witness :
  exists idx,
    Permutation idx (seq 0 8)
    /\ forall k j, nth_error idx k = Some j ->
         row (sort_values (dated trend_frame "date") "date") k
         = row (dated trend_frame "date") j.
Proof.
  assert (L : read_csv (one_file "aq.csv" trend_csv) "aq.csv" = Ok trend_frame)
    by (vm_compute; reflexivity).
  assert (D : distinct_labels trend_frame = true) by (vm_compute; reflexivity).
  assert (E : date_column trend_frame = Some "date") by (vm_compute; reflexivity).
  destruct (sorted_rows_are_loaded_rows _ _ _ _ L D E) as [idx [Pi Hr]].
  exists idx. split; [exact Pi|].
  intros k j Ek. exact (proj2 (Hr k j Ek)).
Defined.

Lemma recognition_ignores_column_order_witness :
  find_date_col trend_frame = find_date_col reversed_frame
  /\ find_pollutants trend_frame = find_pollutants reversed_frame.
Proof.
  apply recognition_ignores_column_order.
  intros x. unfold reversed_frame, columns. cbn [cols].
  rewrite map_rev. apply in_rev.
Defined.

Lemma normalize_columns_idempotent_witness :
  columns (normalize_columns (normalize_columns trend_frame))
  = ["date"; "pm25"; "co"; "pm10"; "o3"].
Proof.
  rewrite (normalize_columns_idempotent trend_frame); vm_compute; reflexivity.
Defined.

Lemma frames_stay_rectangular_witness :
  rectangular trend_sorted = true
  /\ rectangular (DataFrame_head 2 trend_sorted) = true.
Proof.
  assert (L : read_csv (one_file "aq.csv" trend_csv) "aq.csv" = Ok trend_frame)
    by (vm_compute; reflexivity).
  assert (P : prepared trend_frame = Ok trend_sorted) by (vm_compute; reflexivity).
  destruct (frames_stay_rectangular _ _ _ _ 2 L P) as [R [Rh _]].
  split; assumption.
Defined.

Lemma run_data_prompt_injective_witness : "aq.csv" = "aq.csv".
Proof. apply run_data_prompt_injective. reflexivity. Defined.
